(** * Northwind BI: the reconciliation and star-schema pipeline

    A shallow embedding of [scripts/etl_northwind.py] ([merge_sources],
    [build_star_schema]) and of [merge_with_excel] from
    [scripts/etl_northwind_sqlserver.py], with the pandas operations they
    call, followed by the properties of the pipeline.

    Modelling conventions.
    - A cell is a [value]: the two missing markers pandas distinguishes
      when it prints them ([VNaN] for NaN/NaT/NA, [VNone] for a Python
      [None], which is how a database NULL of a text column arrives),
      booleans, integers, binary64 floats, text and timestamps.
    - A [DataFrame] is its column labels and its rows in index order; a row
      maps labels to cells and a label the row does not bind reads as NaN,
      which is what [pd.concat] and a left [merge] fill in.
    - pandas keeps one dtype per column, and some operations depend on it.
      The dtype is read from the cells, as pandas 2 infers it for a column
      it loads and for two such columns put together: a column of
      timestamps and missing cells is a datetime column ([datetime64]), and
      [pd.to_numeric] leaves floats in a column where it has met a float or
      a missing cell and integers otherwise ([as_dtype]).  Elsewhere
      operations act cell by cell and keys are compared by numeric value
      ([key_norm]).
    - Text is its UTF-8 encoding.
    - Integers are int64 where the code casts or computes on an integer
      column: the wrap-around is [wrap64].  Floats are IEEE binary64
      ([spec_float] with precision 53 and exponent bound 1024).
    - What pandas does with text (parsing a number or a date, printing a
      float or a timestamp) is the interface [PandasText].
    - An exception is a [Raise] in the [result] monad. *)

From Stdlib Require Import ZArith String Ascii SpecFloat.
From stdpp Require Import base decidable option list gmap strings pretty.

Set Warnings "-clear-no-such-hyp".

Local Open Scope string_scope.
Local Open Scope Z_scope.

(** ** Cells *)

(** A [pd.Timestamp]: calendar date and the time of day in nanoseconds. *)
Record Timestamp := {
  ts_year : Z;
  ts_month : Z;
  ts_day : Z;
  ts_nanos : Z
}.

Inductive value :=
| VNaN
| VNone
| VBool (b : bool)
| VInt (z : Z)
| VFloat (f : spec_float)
| VStr (s : string)
| VTime (t : Timestamp).

#[global] Instance spec_float_eq_dec : EqDecision spec_float.
Proof. solve_decision. Defined.
#[global] Instance Timestamp_eq_dec : EqDecision Timestamp.
Proof. solve_decision. Defined.
#[global] Instance value_eq_dec : EqDecision value.
Proof. solve_decision. Defined.

(** ** Exceptions *)

Inductive exn :=
| KeyError (msg : string)
| KeyError_labels (cs : list string)
| TypeError (msg : string)
| ValueError (msg : string)
| AttributeError (msg : string).

Inductive result (A : Type) :=
| Ok (a : A)
| Raise (e : exn).
Arguments Ok {A} a.
Arguments Raise {A} e.

#[global] Instance result_ret : MRet result := @Ok.
#[global] Instance result_bind : MBind result :=
  λ A B f m, match m with Ok a => f a | Raise e => Raise e end.
#[global] Instance result_fmap : FMap result :=
  λ A B f m, match m with Ok a => Ok (f a) | Raise e => Raise e end.

Definition is_ok {A} (m : result A) : bool :=
  match m with Ok _ => true | Raise _ => false end.

(** ** Numbers *)

Definition wrap64 (z : Z) : Z := (z + 2 ^ 63) mod 2 ^ 64 - 2 ^ 63.

Definition INT64_MIN : Z := - 2 ^ 63.

Definition b64_add : spec_float → spec_float → spec_float := SFadd 53 1024.
Definition b64_sub : spec_float → spec_float → spec_float := SFsub 53 1024.
Definition b64_mul : spec_float → spec_float → spec_float := SFmul 53 1024.
Definition b64_div : spec_float → spec_float → spec_float := SFdiv 53 1024.

(** int64 to float64, rounded to nearest even. *)
Definition b64_of_Z (z : Z) : spec_float := binary_normalize 53 1024 z 0 false.

(** The float written [n / d] in decimal, e.g. [0.1] is [b64_lit 1 10]:
    both are exact in binary64, so the quotient is the nearest double. *)
Definition b64_lit (n d : Z) : spec_float := b64_div (b64_of_Z n) (b64_of_Z d).

Definition is_nan (f : spec_float) : bool :=
  match f with S754_nan => true | _ => false end.

(** The number of days from 1970-01-01 to the day [d] of the month [m] of
    the year [y], in the Gregorian calendar. *)
Definition days_from_civil (y m d : Z) : Z :=
  let y := if bool_decide (m ≤ 2) then y - 1 else y in
  let era := y / 400 in
  let yoe := y - era * 400 in
  let mp := (m + 9) mod 12 in
  let doy := (153 * mp + 2) / 5 + d - 1 in
  let doe := yoe * 365 + yoe / 4 - yoe / 100 + doy in
  era * 146097 + doe - 719468.

(** The int64 that a [datetime64[ns]] cell holds: the nanoseconds since
    1970-01-01. *)
Definition epoch_nanos (t : Timestamp) : Z :=
  days_from_civil (ts_year t) (ts_month t) (ts_day t) * (86400 * 10 ^ 9) + ts_nanos t.

(** A float result as a cell: the NaN is the missing marker. *)
Definition vfloat (f : spec_float) : value :=
  if is_nan f then VNaN else VFloat f.

(** [Series.isna]. *)
Definition isna (v : value) : bool :=
  match v with
  | VNaN | VNone => true
  | VFloat f => is_nan f
  | _ => false
  end.

(** Odd mantissa and exponent of [m * 2^e]. *)
Fixpoint strip_zeros (m : positive) (e : Z) : positive * Z :=
  match m with
  | xO m' => strip_zeros m' (e + 1)
  | _ => (m, e)
  end.

(** The integer a finite float is equal to, if any. *)
Definition float_integral (f : spec_float) : option Z :=
  match f with
  | S754_zero _ => Some 0
  | S754_finite s m e =>
      let '(m', e') := strip_zeros m e in
      if bool_decide (0 ≤ e') then
        Some ((if s then -1 else 1) * (Z.pos m' * 2 ^ e'))
      else None
  | _ => None
  end.

(** Truncation toward zero of a finite float. *)
Definition float_trunc (f : spec_float) : option Z :=
  match f with
  | S754_zero _ => Some 0
  | S754_finite s m e =>
      let q := if bool_decide (0 ≤ e) then Z.pos m * 2 ^ e
               else Z.pos m / 2 ^ (- e) in
      Some (if s then - q else q)
  | _ => None
  end.

(** ** Text *)

(** [str.lower] on the ASCII letters.  (Python also lowers the letters
    outside ASCII, to text outside ASCII but for the Kelvin sign, which
    becomes [k], and the dotted capital I, which becomes [i] and a
    combining dot.  [lower] is used to compare a name with names made of
    ASCII letters other than [k], and to look a name up in a message.) *)
Definition lower_ascii (a : ascii) : ascii :=
  let n := nat_of_ascii a in
  if bool_decide (65 ≤ n ≤ 90)%nat then ascii_of_nat (n + 32) else a.

Fixpoint lower (s : string) : string :=
  match s with
  | EmptyString => EmptyString
  | String a s' => String (lower_ascii a) (lower s')
  end.

(** [s.replace(a, b)] for one-character [a] and [b]. *)
Fixpoint replace_char (a b : ascii) (s : string) : string :=
  match s with
  | EmptyString => EmptyString
  | String c s' => String (if bool_decide (c = a) then b else c) (replace_char a b s')
  end.

(** The characters [str.strip] removes are the white space of Unicode:
    U+0009 to U+000D, U+001C to U+0020, U+0085, U+00A0, U+1680, U+2000 to
    U+200A, U+2028, U+2029, U+202F, U+205F and U+3000.  In UTF-8 they take
    one byte, *)
Definition is_space (a : ascii) : bool :=
  let n := nat_of_ascii a in
  bool_decide (9 ≤ n ≤ 13 ∨ 28 ≤ n ≤ 32)%nat.

(** two bytes (U+0085 and U+00A0), *)
Definition is_space2 (a b : ascii) : bool :=
  let '(x, y) := (nat_of_ascii a, nat_of_ascii b) in
  bool_decide (x = 194 ∧ (y = 133 ∨ y = 160))%nat.

(** or three bytes. *)
Definition is_space3 (a b c : ascii) : bool :=
  let '(x, y, z) := (nat_of_ascii a, nat_of_ascii b, nat_of_ascii c) in
  bool_decide (x = 225 ∧ y = 154 ∧ z = 128 ∨
               x = 226 ∧ y = 128 ∧ (128 ≤ z ≤ 138 ∨ z = 168 ∨ z = 169 ∨ z = 175) ∨
               x = 226 ∧ y = 129 ∧ z = 159 ∨
               x = 227 ∧ y = 128 ∧ z = 128)%nat.

(** [str.lstrip]. *)
Fixpoint lstrip (s : string) : string :=
  match s with
  | EmptyString => EmptyString
  | String a s1 =>
      if is_space a then lstrip s1
      else match s1 with
           | String b s2 =>
               if is_space2 a b then lstrip s2
               else match s2 with
                    | String c s3 => if is_space3 a b c then lstrip s3 else s
                    | EmptyString => s
                    end
           | EmptyString => s
           end
  end.

(** [str.rstrip] on the text read backwards: the bytes of a character come
    last byte first. *)
Fixpoint rstrip_rev (s : string) : string :=
  match s with
  | EmptyString => EmptyString
  | String c s1 =>
      if is_space c then rstrip_rev s1
      else match s1 with
           | String b s2 =>
               if is_space2 b c then rstrip_rev s2
               else match s2 with
                    | String a s3 => if is_space3 a b c then rstrip_rev s3 else s
                    | EmptyString => s
                    end
           | EmptyString => s
           end
  end.

(** [str.strip]. *)
Definition strip (s : string) : string :=
  String.rev (rstrip_rev (String.rev (lstrip s))).

(** What pandas reads from and writes to text.  [parse_numeric] is
    [pd.to_numeric] on one text cell and [parse_datetime] is [pd.to_datetime]
    on one cell that is neither missing nor a timestamp ([None] when the
    cell does not convert); [repr_float] and [repr_time] are [str] of a
    float and of a timestamp. *)
Inductive number :=
| NInt (z : Z)
| NFloat (f : spec_float).

Class PandasText := {
  parse_numeric : string → option number;
  parse_datetime : value → option Timestamp;
  repr_float : spec_float → string;
  repr_time : Timestamp → string
}.

Definition value_of_number (n : number) : value :=
  match n with
  | NInt z => VInt z
  | NFloat f => vfloat f
  end.

Definition int_of_bool (b : bool) : Z := if b then 1 else 0.

(** [pd.to_numeric(..., errors="coerce")] on one cell of a column of Python
    objects: a number is kept, text is read, and the rest (a missing cell,
    a timestamp, text that is not a number) is missing. *)
Definition to_numeric_object `{PandasText} (v : value) : value :=
  match v with
  | VNaN | VNone | VTime _ => VNaN
  | VBool b => VBool b
  | VInt z => VInt z
  | VFloat f => vfloat f
  | VStr s => from_option value_of_number VNaN (parse_numeric s)
  end.

Definition is_time (v : value) : bool :=
  match v with VTime _ => true | _ => false end.

(** A [datetime64[ns]] column: timestamps and missing cells, with one
    timestamp at least. *)
Definition datetime64 (col : list value) : bool :=
  forallb (λ v, is_time v || isna v) col && existsb is_time col.

Definition is_float (v : value) : bool :=
  match v with VFloat _ | VNaN | VNone => true | _ => false end.

Definition is_int (v : value) : bool :=
  match v with VInt _ => true | _ => false end.

(** The cell [v] of a column of numbers [col] as the array of the column
    holds it: a float when the column has a float or a missing cell
    ([float64]), else an integer when it has an integer ([int64]), else a
    boolean. *)
Definition as_dtype (col : list value) (v : value) : value :=
  if existsb is_float col then
    match v with
    | VInt z => VFloat (b64_of_Z z)
    | VBool b => VFloat (b64_of_Z (int_of_bool b))
    | _ => v
    end
  else if existsb is_int col then
    match v with
    | VBool b => VInt (int_of_bool b)
    | _ => v
    end
  else v.

(** [pd.to_numeric(col, errors="coerce")] on the cell [v] of the column
    [col].  Of a datetime column pandas returns the int64 view: the
    nanoseconds of a timestamp, and [INT64_MIN] for a missing cell. *)
Definition to_numeric `{PandasText} (col : list value) (v : value) : value :=
  if datetime64 col then
    match v with
    | VTime t => VInt (epoch_nanos t)
    | _ => VInt INT64_MIN
    end
  else as_dtype (to_numeric_object <$> col) (to_numeric_object v).

(** The C cast of a float to int64 as numpy performs it on x86-64: a value
    that does not fit gives [INT64_MIN]. *)
Definition int64_of_float (f : spec_float) : option Z :=
  z ← float_trunc f;
  Some (if bool_decide (- 2 ^ 63 ≤ z < 2 ^ 63) then z else INT64_MIN).

(** [Series.astype(int)] on one cell of a numeric column: pandas refuses a
    column that holds a NaN or an infinity. *)
Definition astype_int (v : value) : result Z :=
  match v with
  | VInt z => Ok z
  | VBool b => Ok (int_of_bool b)
  | VFloat f =>
      match int64_of_float f with
      | Some z => Ok z
      | None => Raise (ValueError "Cannot convert non-finite values (NA or inf) to integer")
      end
  | _ => Raise (ValueError "Cannot convert non-finite values (NA or inf) to integer")
  end.

(** [Series.astype("Int64")] on one cell of a numeric column: the nullable
    integer keeps a missing cell and refuses a float with a fraction. *)
Definition astype_Int64 (v : value) : result value :=
  match v with
  | VNaN | VNone => Ok VNaN
  | VInt z => Ok (VInt z)
  | VBool b => Ok (VInt (int_of_bool b))
  | VFloat f =>
      if is_nan f then Ok VNaN
      else match float_integral f with
           | Some z =>
               if bool_decide (- 2 ^ 63 ≤ z < 2 ^ 63) then Ok (VInt z)
               else Raise (TypeError "cannot safely cast non-equivalent float64 to int64")
           | None => Raise (TypeError "cannot safely cast non-equivalent float64 to int64")
           end
  | _ => Raise (TypeError "cannot safely cast non-equivalent object to int64")
  end.

(** [Series.astype(str)] on one cell: [str] of the Python object, so that
    NaN becomes the text [nan] and [None] the text [None]. *)
Definition astype_str `{PandasText} (v : value) : string :=
  match v with
  | VNaN => "nan"
  | VNone => "None"
  | VBool b => if b then "True" else "False"
  | VInt z => pretty z
  | VFloat f => if is_nan f then "nan" else repr_float f
  | VStr s => s
  | VTime t => repr_time t
  end.

(** The value a key cell is compared by ([drop_duplicates], [groupby],
    [merge]): all missing markers are one key, and a number is its numeric
    value whatever its representation ([True == 1 == 1.0] in Python). *)
Definition key_norm (v : value) : value :=
  match v with
  | VNaN | VNone => VNaN
  | VBool b => VInt (int_of_bool b)
  | VFloat f =>
      match f with
      | S754_nan => VNaN
      | S754_zero _ => VInt 0
      | S754_infinity s => VFloat f
      | S754_finite s m e =>
          let '(m', e') := strip_zeros m e in
          if bool_decide (0 ≤ e') then
            VInt ((if s then -1 else 1) * (Z.pos m' * 2 ^ e'))
          else VFloat (S754_finite s m' e')
      end
  | _ => v
  end.

(** ** Data frames *)

Record DataFrame := {
  columns : list string;
  rows : list (gmap string value)
}.

(** [row[c]]: a label the row does not bind is a missing cell. *)
Definition cell (r : gmap string value) (c : string) : value :=
  default VNaN (r !! c).

(** [df[c]]: the cells of the column [c], in index order. *)
Definition column (c : string) (df : DataFrame) : list value :=
  (λ r, cell r c) <$> rows df.

(** The key of a row on the columns [subset]. *)
Definition key_of (subset : list string) (r : gmap string value) : list value :=
  (λ c, key_norm (cell r c)) <$> subset.

Definition notna_on (subset : list string) (r : gmap string value) : Prop :=
  Forall (λ c, isna (cell r c) = false) subset.

#[global] Instance notna_on_dec subset r : Decision (notna_on subset r).
Proof. unfold notna_on. apply _. Defined.

(** [df[c]] raises [KeyError(c)] when [c] is not a column. *)
Definition require_column (c : string) (df : DataFrame) : result unit :=
  if decide (c ∈ columns df) then Ok () else Raise (KeyError c).

(** An operation on the columns [cs] ([subset=cs], [df[cs]]) raises a
    [KeyError] about the labels that are not columns. *)
Definition require_columns (cs : list string) (df : DataFrame) : result unit :=
  match filter (λ c, c ∉ columns df) cs with
  | [] => Ok ()
  | missing => Raise (KeyError_labels missing)
  end.

(** Keep the first element of each key, in order ([keep="first"]);
    [seen] holds the keys met so far. *)
Fixpoint keep_first {A K} `{EqDecision K} (f : A → K) (seen : list K) (l : list A) : list A :=
  match l with
  | [] => []
  | x :: l' =>
      if decide (f x ∈ seen) then keep_first f seen l'
      else x :: keep_first f (f x :: seen) l'
  end.

(** [df.empty]: no column or no row. *)
Definition empty (df : DataFrame) : bool :=
  bool_decide (columns df = [] ∨ rows df = []).

(** [df.drop_duplicates(subset=subset, keep="first")].  pandas returns an
    empty frame as it is, before it looks at [subset]; on another frame it
    wants the labels of [subset] to be columns and, as pandas 1 and 2 are
    written, fails to unpack the codes of an empty [subset]. *)
Definition drop_duplicates (subset : list string) (df : DataFrame) : result DataFrame :=
  if empty df then Ok df
  else
    _ ← require_columns subset df;
    match subset with
    | [] => Raise (ValueError "not enough values to unpack (expected 2, got 0)")
    | _ => Ok {| columns := columns df;
                 rows := keep_first (key_of subset) [] (rows df) |}
    end.

(** [df.drop_duplicates()]: on all columns. *)
Definition drop_duplicates_all (df : DataFrame) : DataFrame :=
  {| columns := columns df;
     rows := keep_first (key_of (columns df)) [] (rows df) |}.

(** [df.dropna(subset=subset)]. *)
Definition dropna (subset : list string) (df : DataFrame) : result DataFrame :=
  _ ← require_columns subset df;
  Ok {| columns := columns df;
        rows := filter (notna_on subset) (rows df) |}.

(** [df.drop(columns=c, errors="ignore")]. *)
Definition drop_column (c : string) (df : DataFrame) : DataFrame :=
  {| columns := filter (λ c', c' ≠ c) (columns df);
     rows := delete c <$> rows df |}.

(** [pd.concat([a, b], ignore_index=True)]: the columns of [a] then the
    new ones of [b]; the rows of [a] then those of [b]. *)
Definition concat (a b : DataFrame) : DataFrame :=
  {| columns := columns a ++ filter (λ c, c ∉ columns a) (columns b);
     rows := rows a ++ rows b |}.

(** [df[c] = f(df)] for a cell-wise [f]. *)
Definition assign (c : string) (f : gmap string value → value) (df : DataFrame) : DataFrame :=
  {| columns := if decide (c ∈ columns df) then columns df else columns df ++ [c];
     rows := (λ r, <[c := f r]> r) <$> rows df |}.

(** The same for an [f] that can raise. *)
Definition assign_result (c : string) (f : gmap string value → result value)
    (df : DataFrame) : result DataFrame :=
  rs ← mapM (λ r, v ← f r; Ok (<[c := v]> r)) (rows df);
  Ok {| columns := if decide (c ∈ columns df) then columns df else columns df ++ [c];
        rows := rs |}.

Definition project (cs : list string) (r : gmap string value) : gmap string value :=
  foldr (λ c m, <[c := cell r c]> m) ∅ cs.

(** [df[[c1, ..., cn]]]. *)
Definition select (cs : list string) (df : DataFrame) : result DataFrame :=
  _ ← require_columns cs df;
  Ok {| columns := cs; rows := project cs <$> rows df |}.

(** [df.rename(columns={old: new})]; a label that is not a column is
    ignored.  (Were [new] a column already, pandas would keep two columns
    under that label; a row here holds the renamed one.) *)
Definition rename (old new : string) (df : DataFrame) : DataFrame :=
  if decide (old ∈ columns df) then
    {| columns := (λ c, if decide (c = old) then new else c) <$> columns df;
       rows := (λ r, <[new := cell r old]> (delete old r)) <$> rows df |}
  else df.

(** [Series.fillna(d)] on one cell. *)
Definition fillna (d v : value) : value := if isna v then d else v.

(** [len(df)]. *)
Definition len (df : DataFrame) : nat := length (rows df).

(** ** Reconciliation of the two origins *)

Definition EXCEL_ORDER_OFFSET : Z := 200000.

(** The source loaders are external: a run is given what [load_excel(table)]
    and [load_sql(table)] return, [None] when the origin has no such table
    (no file, no connection, no such database table). *)
Record Sources := {
  load_excel : string → option DataFrame;
  load_sql : string → option DataFrame
}.

(** [table.lower().replace("_", " ").strip() in {"orders", "order details"}]. *)
Definition is_order_table (table : string) : bool :=
  let name := strip (replace_char "_" " " (lower table)) in
  bool_decide (name = "orders" ∨ name = "order details").

Definition shift_order_id (v : value) : result value :=
  z ← astype_int v; Ok (VInt (wrap64 (z + EXCEL_ORDER_OFFSET))).

Definition _adjust_excel_ids `{PandasText} (table : string) (df : DataFrame) : result DataFrame :=
  if is_order_table table then
    if decide ("OrderID" ∈ columns df) then
      let df := assign "OrderID"
                  (λ r, to_numeric (column "OrderID" df) (cell r "OrderID")) df in
      df ← dropna ["OrderID"] df;
      assign_result "OrderID" (λ r, shift_order_id (cell r "OrderID")) df
    else
      Raise (KeyError ("Colonne OrderID introuvable dans le fichier Excel pour la table " +:+ table))
  else Ok df.

(** [merge_sources(table, key, dedupe)] of [etl_northwind.py]; [key] is the
    list [subset] the function makes of its argument.  [reset_index] renumbers
    the index, which is the position in [rows]. *)
Definition merge_sources `{PandasText} (src : Sources) (table : string)
    (key : list string) (dedupe : bool) : result (option DataFrame) :=
  let subset := key in
  let df_excel := load_excel src table in
  let df_sql := load_sql src table in
  df_excel ← match df_excel with
             | Some d => Some <$> _adjust_excel_ids table d
             | None => Ok None
             end;
  match df_sql, df_excel with
  | None, None => Ok None
  | _, _ =>
      let df := match df_sql, df_excel with
                | None, _ => df_excel
                | Some s, None => Some s
                | Some s, Some e => Some (concat e s)
                end in
      match df with
      | None => Ok None
      | Some df =>
          df ← (if dedupe then
                  df ← drop_duplicates subset df;
                  df ← dropna subset df;
                  Ok (drop_column "_source" df)
                else Ok df);
          Ok (Some df)
      end
  end.

(** [merge_with_excel(sql_df, table, key_columns, dedupe)] of
    [etl_northwind_sqlserver.py]. *)
Definition merge_with_excel `{PandasText} (src : Sources) (sql_df : option DataFrame)
    (table : string) (key_columns : list string) (dedupe : bool) : result (option DataFrame) :=
  let subset := key_columns in
  let df_excel := load_excel src table in
  df_excel ← match df_excel with
             | Some d => Some <$> _adjust_excel_ids table d
             | None => Ok None
             end;
  match df_excel, sql_df with
  | None, None => Ok None
  | _, _ =>
      let combined := match sql_df, df_excel with
                      | None, _ => df_excel
                      | Some s, None => Some s
                      | Some s, Some e => Some (concat e s)
                      end in
      match combined with
      | Some combined =>
          combined ← (if dedupe then
                        combined ← drop_duplicates subset combined;
                        dropna subset combined
                      else Ok combined);
          Ok (Some combined)
      | None => Ok None
      end
  end.

(** What the two reconcilers share: the rows put together, before any
    deduplication. *)
Definition combine (df_excel df_sql : option DataFrame) : option DataFrame :=
  match df_sql, df_excel with
  | None, _ => df_excel
  | Some s, None => Some s
  | Some s, Some e => Some (concat e s)
  end.

(** [drop_duplicates] then [dropna] on the key columns. *)
Definition dedupe_on (subset : list string) (df : DataFrame) : result DataFrame :=
  df ← drop_duplicates subset df; dropna subset df.

(** ** Arithmetic on numeric cells *)

Definition as_int (v : value) : option Z :=
  match v with
  | VInt z => Some z
  | VBool b => Some (int_of_bool b)
  | _ => None
  end.

Definition as_float (v : value) : spec_float :=
  match v with
  | VInt z => b64_of_Z z
  | VBool b => b64_of_Z (int_of_bool b)
  | VFloat f => f
  | _ => S754_nan
  end.

(** A binary operation: int64 with wrap-around when both cells are
    integers, binary64 otherwise. *)
Definition num_op (fz : Z → Z → Z) (ff : spec_float → spec_float → spec_float)
    (a b : value) : value :=
  match as_int a, as_int b with
  | Some x, Some y => VInt (wrap64 (fz x y))
  | _, _ => vfloat (ff (as_float a) (as_float b))
  end.

Definition num_add : value → value → value := num_op Z.add b64_add.
Definition num_sub : value → value → value := num_op Z.sub b64_sub.
Definition num_mul : value → value → value := num_op Z.mul b64_mul.

Definition notna (v : value) : Prop := isna v = false.

(** One step of the summation of [group_sum] and [group_mean], which is
    Kahan's: the running sum and its compensation, the compensation being
    reset when it is not a number (an infinity has come in). *)
Definition kahan_step (acc : spec_float * spec_float) (val : spec_float)
    : spec_float * spec_float :=
  let '(sumx, compensation) := acc in
  let y := b64_sub val compensation in
  let t := b64_add sumx y in
  let compensation := b64_sub (b64_sub t sumx) y in
  (t, if is_nan compensation then S754_zero false else compensation).

Definition kahan_sum (l : list spec_float) : spec_float :=
  (foldl kahan_step (S754_zero false, S754_zero false) l).1.

(** The aggregation ["sum"] of a group, in row order: of the cells of an
    int64 or a boolean column, the int64 sum; of the cells of a float64
    column, the compensated sum of those that are not missing. *)
Definition col_sum (l : list value) : value :=
  if existsb is_float l then vfloat (kahan_sum (as_float <$> filter notna l))
  else foldl num_add (VInt 0) (filter notna l).

(** The aggregation ["mean"] of a group: the compensated float sum of the
    cells that are not missing over their number. *)
Definition col_mean (l : list value) : value :=
  match filter notna l with
  | [] => VNaN
  | xs => vfloat (b64_div (kahan_sum (as_float <$> xs))
                          (b64_of_Z (Z.of_nat (length xs))))
  end.

(** ** Dates *)

(** [pd.to_datetime(..., errors="coerce")] on one cell. *)
Definition to_datetime `{PandasText} (v : value) : value :=
  if isna v then VNaN
  else match v with
       | VTime t => VTime t
       | _ => from_option VTime VNaN (parse_datetime v)
       end.

(** [pd.Timestamp("1996-01-01")]. *)
Definition DEFAULT_DATE : Timestamp :=
  {| ts_year := 1996; ts_month := 1; ts_day := 1; ts_nanos := 0 |}.

(** [int(t.strftime("%Y%m%d"))], the year having four digits. *)
Definition time_key (t : Timestamp) : Z :=
  ts_year t * 10000 + ts_month t * 100 + ts_day t.

(** [.dt.strftime("%Y%m%d").astype(int)] on one cell: a NaT formats to NaN,
    which [astype(int)] refuses. *)
Definition strftime_Ymd_int (v : value) : result value :=
  match v with
  | VTime t => Ok (VInt (time_key t))
  | _ => Raise (ValueError "cannot convert float NaN to integer")
  end.

Definition dt_field (f : Timestamp → Z) (v : value) : value :=
  match v with
  | VTime t => VInt (f t)
  | _ => VNaN
  end.

(** ** Absent tables *)

(** [len(df)] where [df] may be [None]. *)
Definition len_opt (df : option DataFrame) : result nat :=
  match df with
  | Some d => Ok (len d)
  | None => Raise (TypeError "object of type 'NoneType' has no len()")
  end.

(** [df[...]] where [df] may be [None]. *)
Definition subscript (df : option DataFrame) : result DataFrame :=
  match df with
  | Some d => Ok d
  | None => Raise (TypeError "'NoneType' object is not subscriptable")
  end.

(** ** Joins and groups *)

(** A left row with the columns [extra] of the right row it matches, or
    with missing cells when it matches none. *)
Definition join_row (extra : list string) (lr : gmap string value)
    (rr : option (gmap string value)) : gmap string value :=
  foldr (λ c m, <[c := from_option (λ r, cell r c) VNaN rr]> m) lr extra.

(** [left.merge(right, on=on, how="left")], as the pipeline uses it: for
    each left row in order, one row per right row of the same key, or one
    row with the right columns missing.  When a right column other than the
    key is also a left column pandas suffixes both labels; the pipeline then
    reads the plain label, which is the [KeyError] raised here.  pandas
    also refuses, with a [ValueError], to merge a key column of text with a
    key column of numbers; that refusal is not part of this definition, so a
    result stated here is the result of the code only when the code has
    one. *)
Definition merge_left (on : string) (left right : DataFrame) : result DataFrame :=
  _ ← require_column on left;
  _ ← require_column on right;
  match filter (λ c, c ≠ on ∧ c ∈ columns left) (columns right) with
  | c :: _ => Raise (KeyError c)
  | [] =>
      let extra := filter (λ c, c ≠ on) (columns right) in
      let join lr :=
        match filter (λ rr, key_of [on] rr = key_of [on] lr) (rows right) with
        | [] => [join_row extra lr None]
        | ms => (λ rr, join_row extra lr (Some rr)) <$> ms
        end in
      Ok {| columns := columns left ++ extra;
            rows := mjoin (join <$> rows left) |}
  end.

(** ** The star schema: dimensions *)

Section build_star_schema.
Context `{PandasText}.

(** "CLEAN DATES": [orders["OrderDate"]] parsed, and the missing dates
    replaced by the default date when there is one. *)
Definition clean_dates (orders : DataFrame) : result DataFrame :=
  _ ← require_column "OrderDate" orders;
  let orders := assign "OrderDate" (λ r, to_datetime (cell r "OrderDate")) orders in
  let missing_dates := length (filter (λ r, isna (cell r "OrderDate") = true) (rows orders)) in
  Ok (if decide (0 < missing_dates)%nat then
        assign "OrderDate" (λ r, fillna (VTime DEFAULT_DATE) (cell r "OrderDate")) orders
      else orders).

Definition dim_time_row (r : gmap string value) : result (gmap string value) :=
  let d := cell r "OrderDate" in
  k ← strftime_Ymd_int d;
  Ok (<["TimeKey" := k]> (<["date" := d]> (<["year" := dt_field ts_year d]>
     (<["month" := dt_field ts_month d]> (<["day" := dt_field ts_day d]> ∅))))).

(** "DIM TIME". *)
Definition build_dim_time (orders : DataFrame) : result DataFrame :=
  rs ← mapM dim_time_row (rows orders);
  Ok (drop_duplicates_all
        {| columns := ["TimeKey"; "date"; "year"; "month"; "day"]; rows := rs |}).

(** "DIM CUSTOMERS". *)
Definition build_dim_customer (customers : option DataFrame) : result DataFrame :=
  customers ← subscript customers;
  df ← select ["CustomerID"; "CompanyName"; "City"; "Country"; "Phone"] customers;
  let df := rename "Country" "CustomerCountry" (rename "City" "CustomerCity"
           (rename "CompanyName" "CustomerName" (rename "CustomerID" "CustomerKey" df))) in
  df ← dropna ["CustomerKey"] df;
  drop_duplicates ["CustomerKey"] df.

(** [a + b] on two cells of columns of Python objects: pandas leaves a
    missing cell where either side is missing and applies Python's [+]
    elsewhere. *)
Definition str_add (a b : value) : result value :=
  if isna a || isna b then Ok VNaN
  else match a, b with
       | VStr x, VStr y => Ok (VStr (x +:+ y))
       | _, _ => Raise (TypeError "unsupported operand type(s) for +")
       end.

(** A float64 column without a number: every cell is NaN. *)
Definition all_nan (col : list value) : bool :=
  bool_decide (col ≠ []) &&
  forallb (λ v, match v with VNaN => true | VFloat f => is_nan f | _ => false end) col.

(** [col + b] for a text [b], on the cell [a] of [col]: numpy has no
    addition of a float64 array and text. *)
Definition str_add_column (col : list value) (a b : value) : result value :=
  if all_nan col then
    Raise (TypeError "ufunc 'add' did not contain a loop with signature matching types")
  else str_add a b.

(** "DIM EMPLOYEES". *)
Definition build_dim_employee (employees : option DataFrame) : result DataFrame :=
  employees ← subscript employees;
  _ ← require_column "FirstName" employees;
  _ ← require_column "LastName" employees;
  employees ← assign_result "EmployeeFullName"
    (λ r, s ← str_add_column (column "FirstName" employees) (cell r "FirstName") (VStr " ");
          str_add s (cell r "LastName"))
    employees;
  df ← select ["EmployeeID"; "EmployeeFullName"; "FirstName"; "LastName";
               "Title"; "City"; "Country"] employees;
  let df := rename "EmployeeID" "EmployeeKey" df in
  df ← dropna ["EmployeeKey"] df;
  drop_duplicates ["EmployeeKey"] df.

(** "DIM SHIPPERS". *)
Definition build_dim_shipper (shippers : option DataFrame) : result DataFrame :=
  shippers ← subscript shippers;
  df ← select ["ShipperID"; "CompanyName"; "Phone"] shippers;
  let df := rename "CompanyName" "ShipperName" (rename "ShipperID" "ShipperKey" df) in
  df ← assign_result "ShipperKey"
         (λ r, astype_Int64 (to_numeric (column "ShipperKey" df) (cell r "ShipperKey"))) df;
  df ← dropna ["ShipperKey"] df;
  drop_duplicates ["ShipperKey"] df.

(** "DIM CATEGORIES". *)
Definition build_dim_categories (categories : option DataFrame) : result DataFrame :=
  categories ← subscript categories;
  df ← select ["CategoryID"; "CategoryName"] categories;
  df ← dropna ["CategoryID"] df;
  drop_duplicates ["CategoryID"] df.

(** [Series.astype(bool)] on one cell that is not missing. *)
Definition astype_bool (v : value) : bool :=
  match v with
  | VBool b => b
  | VInt z => negb (bool_decide (z = 0))
  | VFloat f => negb (bool_decide (float_integral f = Some 0))
  | VStr s => negb (bool_decide (s = ""))
  | _ => true
  end.

Definition dim_product_row (r : gmap string value) : result (gmap string value) :=
  k ← astype_int (cell r "ProductID");
  Ok (<["ProductKey" := VInt k]> (<["ProductName" := cell r "ProductName"]>
     (<["UnitPrice" := cell r "UnitPrice"]> (<["CategoryName" := cell r "CategoryName"]>
     (<["Discontinued" := VBool (astype_bool (fillna (VBool false) (cell r "Discontinued")))]> ∅))))).

(** "FIX PRODUCTS" and the product dimension. *)
Definition build_dim_product (products : option DataFrame) (dim_categories : DataFrame)
    : result DataFrame :=
  products ← subscript products;
  _ ← require_column "ProductID" products;
  let products := assign "ProductID"
      (λ r, to_numeric (column "ProductID" products) (cell r "ProductID")) products in
  let invalid_products := length (filter (λ r, isna (cell r "ProductID") = true) (rows products)) in
  products ← (if decide (0 < invalid_products)%nat then dropna ["ProductID"] products
              else Ok products);
  products ← merge_left "CategoryID" products dim_categories;
  let products := assign "CategoryName"
                    (λ r, fillna (VStr "Unknown") (cell r "CategoryName")) products in
  rs ← mapM dim_product_row (rows products);
  _ ← require_column "ProductName" products;
  _ ← require_column "UnitPrice" products;
  _ ← require_column "CategoryName" products;
  _ ← require_column "Discontinued" products;
  drop_duplicates ["ProductKey"]
    {| columns := ["ProductKey"; "ProductName"; "UnitPrice"; "CategoryName"; "Discontinued"];
       rows := rs |}.

(** ** The star schema: facts *)

(** [UnitPrice * Quantity * (1 - Discount)]. *)
Definition line_total (r : gmap string value) : value :=
  num_mul (num_mul (cell r "UnitPrice") (cell r "Quantity"))
          (num_sub (VInt 1) (cell r "Discount")).

(** [pd.to_numeric(col, errors="coerce").fillna(0.0)] on the cell [v] of
    the column [col]. *)
Definition numeric_or_zero (col : list value) (v : value) : value :=
  fillna (VFloat (S754_zero false)) (to_numeric col v).

(** The detail rows with [Discount], [Quantity] and [UnitPrice] made
    numeric, and the columns [LineTotal] and [DetailCount] added. *)
Definition normalize_details (order_det : DataFrame) : result DataFrame :=
  _ ← require_column "Discount" order_det;
  let order_det := assign "Discount"
      (λ r, numeric_or_zero (column "Discount" order_det) (cell r "Discount")) order_det in
  _ ← require_column "Quantity" order_det;
  let order_det := assign "Quantity"
      (λ r, numeric_or_zero (column "Quantity" order_det) (cell r "Quantity")) order_det in
  _ ← require_column "UnitPrice" order_det;
  let order_det := assign "UnitPrice"
      (λ r, numeric_or_zero (column "UnitPrice" order_det) (cell r "UnitPrice")) order_det in
  let order_det := assign "LineTotal" line_total order_det in
  Ok (assign "DetailCount" (λ _, VInt 1) order_det).

(** The detail rows of one order: [groupby] leaves out the rows whose key
    is missing. *)
Definition group_of (k : list value) (details : list (gmap string value))
    : list (gmap string value) :=
  filter (λ r, key_of ["OrderID"] r = k) (filter (notna_on ["OrderID"]) details).

Definition column_of (c : string) (g : list (gmap string value)) : list value :=
  (λ r, cell r c) <$> g.

Definition summary_row (details : list (gmap string value)) (r0 : gmap string value)
    : gmap string value :=
  let g := group_of (key_of ["OrderID"] r0) details in
  <["OrderID" := cell r0 "OrderID"]>
  (<["DetailCount" := col_sum (column_of "DetailCount" g)]>
  (<["TotalQuantity" := col_sum (column_of "Quantity" g)]>
  (<["AverageDiscount" := col_mean (column_of "Discount" g)]>
  (<["TotalLineTotal" := col_sum (column_of "LineTotal" g)]> ∅)))).

(** [order_det.groupby("OrderID", as_index=False).agg(...)]: one row per
    key.  pandas lists the groups by increasing key; here they are in order
    of first appearance, the summary being only looked up by key. *)
Definition detail_summary (order_det : DataFrame) : result DataFrame :=
  _ ← require_column "OrderID" order_det;
  Ok {| columns := ["OrderID"; "DetailCount"; "TotalQuantity"; "AverageDiscount";
                    "TotalLineTotal"];
        rows := summary_row (rows order_det) <$>
                  keep_first (key_of ["OrderID"]) []
                    (filter (notna_on ["OrderID"]) (rows order_det)) |}.

(** Whether renaming [old] to [new] leaves two columns under the label
    [new], which pandas allows; what the code then does with the label
    fails. *)
Definition two_columns (old new : string) (df : DataFrame) : bool :=
  bool_decide (old ∈ columns df ∧ new ∈ columns df).

Definition key_column (c : string) (twice : bool) (e : exn) (df : DataFrame) : result unit :=
  if twice then Raise e else require_column c df.

(** "FACT TABLE", from the merge onwards. *)
Definition build_fact_sales (orders summary : DataFrame) : result DataFrame :=
  fact_sales ← merge_left "OrderID" (drop_column "_source" orders) summary;
  _ ← require_column "OrderDate" fact_sales;
  let fact_sales := assign "OrderDate"
      (λ r, fillna (VTime DEFAULT_DATE) (to_datetime (cell r "OrderDate"))) fact_sales in
  fact_sales ← assign_result "TimeKey" (λ r, strftime_Ymd_int (cell r "OrderDate")) fact_sales;
  fact_sales ← assign_result "DetailCount"
      (λ r, VInt <$> astype_int (fillna (VInt 0) (cell r "DetailCount"))) fact_sales;
  let zero := VFloat (S754_zero false) in
  let fact_sales := assign "TotalQuantity" (λ r, fillna zero (cell r "TotalQuantity")) fact_sales in
  let fact_sales := assign "AverageDiscount" (λ r, fillna zero (cell r "AverageDiscount")) fact_sales in
  let fact_sales := assign "TotalLineTotal" (λ r, fillna zero (cell r "TotalLineTotal")) fact_sales in
  _ ← require_column "Freight" fact_sales;
  let fact_sales := assign "Freight"
      (λ r, numeric_or_zero (column "Freight" fact_sales) (cell r "Freight")) fact_sales in
  let customer_twice := two_columns "CustomerID" "CustomerKey" fact_sales in
  let employee_twice := two_columns "EmployeeID" "EmployeeKey" fact_sales in
  let shipper_twice := two_columns "ShipVia" "ShipperKey" fact_sales in
  let fact_sales := rename "ShipVia" "ShipperKey" (rename "EmployeeID" "EmployeeKey"
      (rename "CustomerID" "CustomerKey" (rename "OrderID" "OrderKey" fact_sales))) in
  _ ← key_column "CustomerKey" customer_twice
        (AttributeError "'DataFrame' object has no attribute 'str'") fact_sales;
  let fact_sales := assign "CustomerKey"
      (λ r, VStr (strip (astype_str (cell r "CustomerKey")))) fact_sales in
  _ ← key_column "EmployeeKey" employee_twice
        (TypeError "arg must be a list, tuple, 1-d array, or Series") fact_sales;
  fact_sales ← assign_result "EmployeeKey"
      (λ r, astype_Int64 (to_numeric (column "EmployeeKey" fact_sales) (cell r "EmployeeKey")))
      fact_sales;
  _ ← key_column "ShipperKey" shipper_twice
        (TypeError "arg must be a list, tuple, 1-d array, or Series") fact_sales;
  assign_result "ShipperKey"
    (λ r, astype_Int64 (to_numeric (column "ShipperKey" fact_sales) (cell r "ShipperKey")))
    fact_sales.

(** ** The pipeline *)

(** The tables the run exports. *)
Record StarSchema := {
  dim_time : DataFrame;
  dim_customer : DataFrame;
  dim_product : DataFrame;
  dim_employee : DataFrame;
  dim_shipper : DataFrame;
  dim_categories : DataFrame;
  fact_sales : DataFrame
}.

Definition build_star_schema (src : Sources) : result StarSchema :=
  orders ← merge_sources src "Orders" ["OrderID"] false;
  order_det ← merge_sources src "Order Details" ["OrderID"; "ProductID"] false;
  customers ← merge_sources src "Customers" ["CustomerID"] true;
  products ← merge_sources src "Products" ["ProductID"] true;
  employees ← merge_sources src "Employees" ["EmployeeID"] true;
  shippers ← merge_sources src "Shippers" ["ShipperID"] true;
  categories ← merge_sources src "Categories" ["CategoryID"] true;
  _ ← len_opt orders;
  _ ← len_opt order_det;
  orders ← subscript orders;
  orders ← clean_dates orders;
  dim_time ← build_dim_time orders;
  dim_customer ← build_dim_customer customers;
  dim_employee ← build_dim_employee employees;
  dim_shipper ← build_dim_shipper shippers;
  dim_categories ← build_dim_categories categories;
  dim_product ← build_dim_product products dim_categories;
  order_det ← subscript order_det;
  order_det ← normalize_details order_det;
  summary ← detail_summary order_det;
  fact_sales ← build_fact_sales orders summary;
  Ok {| dim_time := dim_time; dim_customer := dim_customer; dim_product := dim_product;
        dim_employee := dim_employee; dim_shipper := dim_shipper;
        dim_categories := dim_categories; fact_sales := fact_sales |}.

End build_star_schema.

(** ** A text interface for the examples

    Text is read as a number only when it is a run of decimal digits, no
    text is read as a date, and floats and timestamps print as the empty
    text; the examples below rely on the reading of digits only. *)

Fixpoint digits_value (acc : Z) (s : string) : option Z :=
  match s with
  | EmptyString => Some acc
  | String a s' =>
      let n := nat_of_ascii a in
      if bool_decide (48 ≤ n ≤ 57)%nat then digits_value (10 * acc + Z.of_nat (n - 48)) s'
      else None
  end.

Definition parse_digits (s : string) : option number :=
  match s with
  | EmptyString => None
  | _ => NInt <$> digits_value 0 s
  end.

Definition digits_only : PandasText :=
  {| parse_numeric := parse_digits;
     parse_datetime := λ _, None;
     repr_float := λ _, EmptyString;
     repr_time := λ _, EmptyString |}.

(** The text of the UTF-8 bytes [bytes]. *)
Definition utf8 (bytes : list nat) : string :=
  foldr (λ n s, String (ascii_of_nat n) s) EmptyString bytes.

(** The no-break space U+00A0 and the ideographic space U+3000. *)
Definition nbsp : string := utf8 [194; 160]%nat.
Definition wide_space : string := utf8 [227; 128; 128]%nat.

(** A frame from its labels and its rows given as lists of cells. *)
Definition row_of (cs : list string) (vs : list value) : gmap string value :=
  list_to_map (zip cs vs).

Definition frame (cs : list string) (vss : list (list value)) : DataFrame :=
  {| columns := cs; rows := row_of cs <$> vss |}.

Definition no_sources : Sources :=
  {| load_excel := λ _, None; load_sql := λ _, None |}.

(** The sources with the spreadsheet, or the database table, [t] set. *)
Definition with_excel (t : string) (df : DataFrame) (src : Sources) : Sources :=
  {| load_excel := λ t', if decide (t' = t) then Some df else load_excel src t';
     load_sql := load_sql src |}.

Definition with_sql (t : string) (df : DataFrame) (src : Sources) : Sources :=
  {| load_excel := load_excel src;
     load_sql := λ t', if decide (t' = t) then Some df else load_sql src t' |}.

(** [df.values.tolist()]. *)
Definition cells (df : DataFrame) : list (list value) :=
  (λ r, cell r <$> columns df) <$> rows df.

(** ** Vocabulary of the statements *)

(** A row of the spreadsheet [xl] of an order table is kept when its
    identifier coerces to a number. *)
Definition coercible_id `{PandasText} (xl : DataFrame) (r : gmap string value) : Prop :=
  isna (to_numeric (column "OrderID" xl) (cell r "OrderID")) = false.

#[global] Instance coercible_id_dec `{PandasText} xl r : Decision (coercible_id xl r).
Proof. unfold coercible_id. apply _. Defined.

(** [r'] is the row [r] of the spreadsheet [xl] with its order identifier
    cast to int64 and shifted. *)
Definition shifted `{PandasText} (xl : DataFrame) (r r' : gmap string value) : Prop :=
  ∃ z, astype_int (to_numeric (column "OrderID" xl) (cell r "OrderID")) = Ok z ∧
       r' = <["OrderID" := VInt (wrap64 (z + EXCEL_ORDER_OFFSET))]> r.

(** The spreadsheet origin after [_adjust_excel_ids], when there is one. *)
Definition adjusted `{PandasText} (table : string) (df_excel : option DataFrame)
    : result (option DataFrame) :=
  match df_excel with
  | Some d => Some <$> _adjust_excel_ids table d
  | None => Ok None
  end.

(** The frame [df] has the key columns [subset]. *)
Definition has_columns (subset : list string) (df : DataFrame) : Prop :=
  Forall (λ c, c ∈ columns df) subset.

(** The message of an exception. *)
Definition exn_msg (e : exn) : string :=
  match e with
  | KeyError m | TypeError m | ValueError m | AttributeError m => m
  | KeyError_labels cs => String.concat ", " cs
  end.

(** ** Data of the examples *)

Definition customers_twice : DataFrame :=
  frame ["CustomerID"; "CompanyName"]
    [[VStr "ALFKI"; VStr "Alfreds Futterkiste"];
     [VStr "ALFKI"; VStr "Alfreds (copy)"];
     [VNaN; VStr "No identifier"]].

(** A spreadsheet of customers that carries a column [_source]. *)
Definition customers_tagged : DataFrame :=
  frame ["CustomerID"; "CompanyName"; "_source"]
    [[VStr "ALFKI"; VStr "Alfreds Futterkiste"; VStr "excel"]].

(** A spreadsheet of orders whose only identifier is [5]. *)
Definition orders_five : DataFrame := frame ["OrderID"] [[VInt 5]].

(** A spreadsheet of orders whose only identifier is negative. *)
Definition orders_negative : DataFrame := frame ["OrderID"] [[VInt (-5)]].

(** A spreadsheet of orders whose column of identifiers holds a date and an
    empty cell, which makes it a datetime column. *)
Definition orders_dated : DataFrame :=
  frame ["OrderID"]
    [[VTime {| ts_year := 1996; ts_month := 7; ts_day := 4; ts_nanos := 0 |}]; [VNaN]].

(** The cells of the table a reconciler returns. *)
Definition result_cells (m : result (option DataFrame))
    : result (option (list (list value))) :=
  fmap (M := result) (fmap (M := option) cells) m.

(** The configuration error of [_adjust_excel_ids]. *)
Definition config_error (table : string) : exn :=
  KeyError ("Colonne OrderID introuvable dans le fichier Excel pour la table " +:+ table).

(** The spreadsheet [xl] of an order table lacks the column OrderID. *)
Definition lacks_order_id (table : string) (xl : DataFrame) : Prop :=
  is_order_table table = true ∧ "OrderID" ∉ columns xl.

(** The spreadsheet [xl] of an order table has an identifier that coerces
    to an infinity, which the cast to int64 refuses. *)
Definition infinite_order_id `{PandasText} (table : string) (xl : DataFrame) : Prop :=
  is_order_table table = true ∧ "OrderID" ∈ columns xl ∧
  ∃ r s, r ∈ rows xl ∧
         to_numeric (column "OrderID" xl) (cell r "OrderID") = VFloat (S754_infinity s).

(** A customers spreadsheet without the key column. *)
Definition customers_no_key : DataFrame :=
  frame ["CompanyName"] [[VStr "Alfreds Futterkiste"]].

(** An orders spreadsheet with identifiers that do not coerce. *)
Definition orders_text_ids : DataFrame :=
  frame ["OrderID"] [[VStr "n/a"]; [VStr "17"]; [VNaN]].

(** The common shape of the two reconcilers: [post] is what is done to the
    deduplicated table ([merge_sources] removes the column [_source]). *)
Definition reconcile_with `{PandasText} (post : DataFrame → DataFrame)
    (df_excel df_sql : option DataFrame) (table : string) (key : list string)
    (dedupe : bool) : result (option DataFrame) :=
  e ← adjusted table df_excel;
  match combine e df_sql with
  | None => Ok None
  | Some df =>
      if dedupe then (λ d, Some (post d)) <$> dedupe_on key df else Ok (Some df)
  end.

(** A reconciler aborts for a missing key column: [dedupe] is set and the
    rows put together lack one of the key columns. *)
Definition lacks_key_column `{PandasText} (df_excel df_sql : option DataFrame)
    (table : string) (key : list string) (dedupe : bool) : Prop :=
  dedupe = true ∧
  ∃ e all, adjusted table df_excel = Ok e ∧ combine e df_sql = Some all ∧
           ¬ has_columns key all.

(** The value of a cell computation that did not raise. *)
Definition value_or_nan (m : result value) : value :=
  match m with Ok v => v | Raise _ => VNaN end.

(** The detail row [r] of the table [od] after [normalize_details]. *)
Definition normalize_row `{PandasText} (od : DataFrame) (r : gmap string value)
    : gmap string value :=
  let r := <["Discount" := numeric_or_zero (column "Discount" od) (cell r "Discount")]> r in
  let r := <["Quantity" := numeric_or_zero (column "Quantity" od) (cell r "Quantity")]> r in
  let r := <["UnitPrice" := numeric_or_zero (column "UnitPrice" od) (cell r "UnitPrice")]> r in
  let r := <["LineTotal" := line_total r]> r in
  <["DetailCount" := VInt 1]> r.

(** The row of the summary that an order row matches, if any. *)
Definition matched (summary : DataFrame) (r : gmap string value)
    : option (gmap string value) :=
  head (filter (λ s, key_of ["OrderID"] s = key_of ["OrderID"] r) (rows summary)).

(** The two detail rows of the scenario. *)
Definition details_scenario : DataFrame :=
  frame ["OrderID"; "Quantity"; "UnitPrice"; "Discount"]
    [[VInt 1; VInt 2; VInt 10; VInt 0];
     [VInt 1; VInt 1; VInt 5; VFloat (b64_lit 1 10)]].

(** Three detail rows of one order whose quantities are 0.1, 0.2 and 0.3:
    added one after the other as floats they would make
    0.6000000000000001. *)
Definition details_tenths : DataFrame :=
  frame ["OrderID"; "Quantity"; "UnitPrice"; "Discount"]
    [[VInt 7; VFloat (b64_lit 1 10); VInt 1; VInt 0];
     [VInt 7; VFloat (b64_lit 2 10); VInt 1; VInt 0];
     [VInt 7; VFloat (b64_lit 3 10); VInt 1; VInt 0]].

(** Detail rows with a missing quantity, a quantity that is text and a
    price that is not a number. *)
Definition details_missing : DataFrame :=
  frame ["OrderID"; "Quantity"; "UnitPrice"; "Discount"]
    [[VInt 8; VNaN; VInt 10; VInt 0];
     [VInt 8; VStr "3"; VStr "n/a"; VNone]].

(** Detail rows whose discounts are a date and an empty cell, which makes
    the column a datetime column. *)
Definition details_dated : DataFrame :=
  frame ["OrderID"; "Quantity"; "UnitPrice"; "Discount"]
    [[VInt 9; VInt 1; VInt 1;
      VTime {| ts_year := 1996; ts_month := 7; ts_day := 4; ts_nanos := 0 |}];
     [VInt 9; VInt 1; VInt 1; VNaN]].

(** The aggregate columns of the summary. *)
Definition summary_columns : list string :=
  ["DetailCount"; "TotalQuantity"; "AverageDiscount"; "TotalLineTotal"].

(** An order row joined to the row of the summary it matches. *)
Definition joined (summary : DataFrame) (r : gmap string value) : gmap string value :=
  join_row summary_columns (delete "_source" r) (matched summary r).

(** [rename] on one row; [b] tells whether [old] is a column. *)
Definition rename_row (b : bool) (old new : string) (r : gmap string value)
    : gmap string value :=
  if b then <[new := cell r old]> (delete old r) else r.

(** A joined row after the column assignments and renamings of the fact
    table, in four stages.  [freight], [employees] and [shippers] are the
    columns that are made numeric. *)
Definition fact_dates `{PandasText} (j : gmap string value) : gmap string value :=
  let r := <["OrderDate" := fillna (VTime DEFAULT_DATE) (to_datetime (cell j "OrderDate"))]> j in
  <["TimeKey" := value_or_nan (strftime_Ymd_int (cell r "OrderDate"))]> r.

Definition fact_measures `{PandasText} (freight : list value) (r : gmap string value)
    : gmap string value :=
  let zero := VFloat (S754_zero false) in
  let r := <["DetailCount" :=
               value_or_nan (VInt <$> astype_int (fillna (VInt 0) (cell r "DetailCount")))]> r in
  let r := <["TotalQuantity" := fillna zero (cell r "TotalQuantity")]> r in
  let r := <["AverageDiscount" := fillna zero (cell r "AverageDiscount")]> r in
  let r := <["TotalLineTotal" := fillna zero (cell r "TotalLineTotal")]> r in
  <["Freight" := numeric_or_zero freight (cell r "Freight")]> r.

(** The flags tell whether [CustomerID], [EmployeeID] and [ShipVia] are
    columns of the orders. *)
Definition fact_renames (b_c b_e b_s : bool) (r : gmap string value)
    : gmap string value :=
  rename_row b_s "ShipVia" "ShipperKey"
    (rename_row b_e "EmployeeID" "EmployeeKey"
       (rename_row b_c "CustomerID" "CustomerKey"
          (rename_row true "OrderID" "OrderKey" r))).

Definition fact_keys `{PandasText} (employees shippers : list value)
    (r : gmap string value) : gmap string value :=
  let r := <["CustomerKey" := VStr (strip (astype_str (cell r "CustomerKey")))]> r in
  let r := <["EmployeeKey" :=
               value_or_nan (astype_Int64 (to_numeric employees (cell r "EmployeeKey")))]> r in
  <["ShipperKey" :=
      value_or_nan (astype_Int64 (to_numeric shippers (cell r "ShipperKey")))]> r.

Definition fact_row `{PandasText} (freight employees shippers : list value)
    (b_c b_e b_s : bool) (j : gmap string value) : gmap string value :=
  fact_keys employees shippers
    (fact_renames b_c b_e b_s (fact_measures freight (fact_dates j))).

(** An order row after "CLEAN DATES". *)
Definition clean_row `{PandasText} (r : gmap string value) : gmap string value :=
  <["OrderDate" := fillna (VTime DEFAULT_DATE) (to_datetime (cell r "OrderDate"))]> r.


(** A small Northwind database: every table comes from the database and
    there is no spreadsheet.  Order 10248 has two detail rows and order
    10249 has none; the customer of order 10249 is not in Customers. *)
Definition noon : Z := 43200 * 10 ^ 9.

Definition july_4 (nanos : Z) : value :=
  VTime {| ts_year := 1996; ts_month := 7; ts_day := 4; ts_nanos := nanos |}.

Definition nw_orders : DataFrame :=
  frame ["OrderID"; "CustomerID"; "EmployeeID"; "OrderDate"; "ShipVia"; "Freight"]
    [[VInt 10248; VStr "VINET"; VInt 5; july_4 0; VInt 3; VFloat (b64_lit 3238 100)];
     [VInt 10249; VStr "ZZZZZ"; VInt 6; july_4 0; VInt 1; VFloat (b64_lit 1161 100)]].

Definition nw_details : DataFrame :=
  frame ["OrderID"; "ProductID"; "UnitPrice"; "Quantity"; "Discount"]
    [[VInt 10248; VInt 11; VInt 14; VInt 12; VFloat (S754_zero false)];
     [VInt 10248; VInt 42; VFloat (b64_lit 98 10); VInt 10; VFloat (S754_zero false)]].

Definition nw_customers : DataFrame :=
  frame ["CustomerID"; "CompanyName"; "City"; "Country"; "Phone"]
    [[VStr "VINET"; VStr "Vins et alcools Chevalier"; VStr "Reims"; VStr "France";
      VStr "26.47.15.10"]].

Definition nw_products : DataFrame :=
  frame ["ProductID"; "ProductName"; "CategoryID"; "UnitPrice"; "Discontinued"]
    [[VInt 11; VStr "Queso Cabrales"; VInt 4; VInt 21; VBool false];
     [VInt 42; VStr "Singaporean Hokkien Fried Mee"; VInt 5; VInt 14; VBool true]].

Definition nw_employees : DataFrame :=
  frame ["EmployeeID"; "FirstName"; "LastName"; "Title"; "City"; "Country"]
    [[VInt 5; VStr "Steven"; VStr "Buchanan"; VStr "Sales Manager"; VStr "London";
      VStr "UK"]].

Definition nw_shippers : DataFrame :=
  frame ["ShipperID"; "CompanyName"; "Phone"]
    [[VInt 3; VStr "Federal Shipping"; VStr "(503) 555-9931"]].

Definition nw_categories : DataFrame :=
  frame ["CategoryID"; "CategoryName"] [[VInt 4; VStr "Dairy Products"]].

Definition northwind_with (orders customers : DataFrame) : Sources :=
  with_sql "Orders" orders (with_sql "Order Details" nw_details
  (with_sql "Customers" customers (with_sql "Products" nw_products
  (with_sql "Employees" nw_employees (with_sql "Shippers" nw_shippers
  (with_sql "Categories" nw_categories no_sources)))))).

Definition northwind : Sources := northwind_with nw_orders nw_customers.

(** Orders whose customer identifiers have white space around them: a
    space and a line feed, a no-break space, an ideographic space. *)
Definition nw_orders_spaced : DataFrame :=
  frame ["OrderID"; "CustomerID"; "EmployeeID"; "OrderDate"; "ShipVia"; "Freight"]
    [[VInt 10248; VStr (" VINET" +:+ utf8 [10]%nat); VInt 5; july_4 0; VInt 3; VInt 0];
     [VInt 10249; VStr ("VINET" +:+ nbsp); VInt 5; july_4 0; VInt 3; VInt 0];
     [VInt 10250; VStr (wide_space +:+ "VI NET"); VInt 5; july_4 0; VInt 3; VInt 0]].

(** Orders of the same day at two times of day. *)
Definition nw_orders_same_day : DataFrame :=
  frame ["OrderID"; "CustomerID"; "EmployeeID"; "OrderDate"; "ShipVia"; "Freight"]
    [[VInt 10248; VStr "VINET"; VInt 5; july_4 0; VInt 3; VFloat (b64_lit 3238 100)];
     [VInt 10249; VStr "VINET"; VInt 5; july_4 noon; VInt 3; VFloat (b64_lit 1161 100)]].





(** The logical tables of the pipeline. *)
Definition tables : list string :=
  ["Orders"; "Order Details"; "Customers"; "Products"; "Employees"; "Shippers";
   "Categories"].

(** [contains t s]: the text [t] occurs in [s]. *)
Fixpoint contains (t s : string) : bool :=
  String.prefix t s ||
  match s with
  | EmptyString => false
  | String _ s' => contains t s'
  end.

(** An error tells which table is missing when its message has the name of
    the table, in the spelling of the call or in lower case. *)
Definition names_table (e : exn) (table : string) : Prop :=
  contains table (exn_msg e) = true ∨ contains (lower table) (exn_msg e) = true.

(** The chosen columns of the tables of a run. *)
Definition columns_of_run `{PandasText} (src : Sources)
    (sel : list ((StarSchema → DataFrame) * string)) : result (list (list value)) :=
  star ← build_star_schema src;
  Ok ((λ tc, column tc.2 (tc.1 star)) <$> sel).

(** The sources without the table [t]. *)
Definition without (t : string) (src : Sources) : Sources :=
  {| load_excel := λ t', if decide (t' = t) then None else load_excel src t';
     load_sql := λ t', if decide (t' = t) then None else load_sql src t' |}.

(** The key column [k] of a dimension is never missing and never
    repeated. *)
Definition key_column_ok (k : string) (df : DataFrame) : Prop :=
  Forall (notna_on [k]) (rows df) ∧ NoDup (key_of [k] <$> rows df).

(** * Properties *)

(** ** The result monad *)

Lemma bind_Ok {A B} (m : result A) (f : A → result B) (b : B) :
  m ≫= f = Ok b ↔ ∃ a, m = Ok a ∧ f a = Ok b.
Proof.
  destruct m as [a|e]; simpl.
  - split; [eauto | by intros (a' & [= <-] & ?)].
  - split; [done | by intros (? & ? & ?)].
Qed.

Lemma bind_Raise {A B} (m : result A) (f : A → result B) (e : exn) :
  m ≫= f = Raise e ↔ m = Raise e ∨ ∃ a, m = Ok a ∧ f a = Raise e.
Proof.
  destruct m as [a|e']; simpl.
  - split; [eauto | by intros [? | (a' & [= <-] & ?)]].
  - split; [intros [= ->]; by left | by intros [[= ->] | (? & ? & ?)]].
Qed.

Lemma fmap_Ok {A B} (f : A → B) (m : result A) (b : B) :
  f <$> m = Ok b ↔ ∃ a, m = Ok a ∧ b = f a.
Proof.
  destruct m as [a|e]; simpl.
  - split; [intros [= <-]; eauto | by intros (a' & [= <-] & ->)].
  - split; [done | by intros (? & ? & ?)].
Qed.

Lemma mapM_Ok {A B} (f : A → result B) (l : list A) (k : list B) :
  mapM f l = Ok k ↔ Forall2 (λ x y, f x = Ok y) l k.
Proof.
  revert k. induction l as [|x l IH]; intros k; simpl.
  - split; [intros [= <-]; constructor | by inversion 1].
  - rewrite bind_Ok. split.
    + intros (y & Hy & Hk). apply bind_Ok in Hk as (k' & Hk' & [= <-]).
      constructor; [done | by apply IH].
    + inversion 1 as [|? y ? k' Hy Hk]; subst.
      exists y. split; [done|]. apply bind_Ok. exists k'. split; [by apply IH | done].
Qed.

Lemma mapM_Raise {A B} (f : A → result B) (l : list A) (e : exn) :
  mapM f l = Raise e → ∃ x, x ∈ l ∧ f x = Raise e.
Proof.
  induction l as [|x l IH]; simpl; [done|].
  rewrite bind_Raise. intros [Hx | (y & Hy & Hk)].
  - exists x. split; [left | done].
  - apply bind_Raise in Hk as [Hk | (k' & _ & [=])].
    destruct (IH Hk) as (x' & ? & ?). exists x'. split; [by right | done].
Qed.

(** ** The conversion of integers to floats *)

Lemma shr_1_nonneg mrs : 0 ≤ shr_m mrs → 0 ≤ shr_m (shr_1 mrs).
Proof. destruct mrs as [[|[p|p|]|p] r s]; cbn; lia. Qed.

Lemma iter_shr_1_nonneg p mrs :
  0 ≤ shr_m mrs → 0 ≤ shr_m (SpecFloat.iter_pos shr_1 p mrs).
Proof.
  revert mrs. induction p as [p IH|p IH|]; intros mrs Hm; cbn.
  - apply IH, IH. by apply shr_1_nonneg.
  - by apply IH, IH.
  - by apply shr_1_nonneg.
Qed.

Lemma shr_nonneg mrs e n : 0 ≤ shr_m mrs → 0 ≤ shr_m (shr mrs e n).1.
Proof. intros Hm. destruct n; cbn; [done| |done]. by apply iter_shr_1_nonneg. Qed.

Lemma binary_round_aux_not_nan prec emax sx mx ex lx :
  0 ≤ mx → is_nan (binary_round_aux prec emax sx mx ex lx) = false.
Proof.
  intros Hm. unfold binary_round_aux, shr_fexp.
  set (n1 := fexp _ _ _ - ex).
  pose proof (shr_nonneg (shr_record_of_loc mx lx) ex n1) as H1.
  destruct (shr (shr_record_of_loc mx lx) ex n1) as [mrs' e'] eqn:E1. cbn in H1.
  assert (0 ≤ shr_m mrs') as Hm' by (apply H1; destruct lx as [|[]]; cbn; lia).
  set (m2 := round_nearest_even _ _).
  assert (0 ≤ m2) as Hm2.
  { unfold m2, round_nearest_even. destruct (loc_of_shr_record mrs') as [|[]];
      try lia. destruct (IntDef.Z.even _); lia. }
  set (n2 := fexp _ _ _ - e').
  pose proof (shr_nonneg (shr_record_of_loc m2 loc_Exact) e' n2 Hm2) as H2.
  destruct (shr (shr_record_of_loc m2 loc_Exact) e' n2) as [mrs'' e''] eqn:E2. cbn in H2.
  destruct (shr_m mrs'') as [|m|m]; [done| |lia]. by destruct (_ <=? _).
Qed.

(** An integer never converts to a NaN. *)
Lemma b64_of_Z_not_nan z : is_nan (b64_of_Z z) = false.
Proof.
  unfold b64_of_Z, binary_normalize. destruct z as [|p|p]; [done|..];
    unfold binary_round; destruct (shl_align _ _ _) as [mz ez];
    by apply binary_round_aux_not_nan.
Qed.

(** ** Cells of a row *)

Lemma cell_insert_eq (r : gmap string value) c v : cell (<[c := v]> r) c = v.
Proof. unfold cell. by rewrite lookup_insert_eq. Qed.

Lemma cell_insert_ne (r : gmap string value) c c' v :
  c ≠ c' → cell (<[c := v]> r) c' = cell r c'.
Proof. intros. unfold cell. by rewrite lookup_insert_ne. Qed.

Lemma cell_delete_ne (r : gmap string value) c c' :
  c ≠ c' → cell (delete c r) c' = cell r c'.
Proof. intros. unfold cell. by rewrite lookup_delete_ne. Qed.

Lemma cell_delete_eq (r : gmap string value) c : cell (delete c r) c = VNaN.
Proof. unfold cell. by rewrite lookup_delete_eq. Qed.

Lemma cell_empty c : cell ∅ c = VNaN.
Proof. unfold cell. by rewrite lookup_empty. Qed.

Lemma key_of_ext subset (r r' : gmap string value) :
  (∀ c, c ∈ subset → cell r' c = cell r c) → key_of subset r' = key_of subset r.
Proof.
  intros Hc. unfold key_of. apply list_fmap_ext.
  intros i c Hi. simpl. rewrite Hc; [done|]. by eapply list_elem_of_lookup_2.
Qed.

(** A cell is missing exactly when its key is the missing key. *)
Lemma isna_key_norm v : isna v = true ↔ key_norm v = VNaN.
Proof.
  destruct v as [| |b|z|f|s|t]; simpl; try done.
  destruct f as [s|s| |s m e]; simpl; try done.
  destruct (strip_zeros m e) as [m' e']. by case_bool_decide.
Qed.

Lemma notna_on_key subset (r r' : gmap string value) :
  key_of subset r = key_of subset r' → notna_on subset r → notna_on subset r'.
Proof.
  unfold key_of, notna_on. revert r r'.
  induction subset as [|c cs IH]; intros r r' Hk Hn; [constructor|].
  simpl in Hk. injection Hk as Hc Hcs. inversion Hn as [|?? Hc' Hcs']; subst.
  constructor; [|by eapply IH].
  destruct (isna (cell r' c)) eqn:E; [|done].
  apply isna_key_norm in E. rewrite E in Hc. apply isna_key_norm in Hc. congruence.
Qed.

(** ** Keeping the first row of each key *)

Section keep_first.
Context {A K : Type} `{EqDecision K} (f : A → K).

Lemma keep_first_elem x seen l :
  x ∈ keep_first f seen l → x ∈ l ∧ f x ∉ seen.
Proof.
  revert seen. induction l as [|y l IH]; intros seen; simpl; [by inversion 1|].
  case_decide as Hy.
  - intros Hx. destruct (IH _ Hx). split; [by right | done].
  - intros [->|Hx]%elem_of_cons; [split; [left | done]|].
    destruct (IH _ Hx) as [? Hs]. split; [by right|].
    intros ?. apply Hs. by right.
Qed.

Lemma keep_first_sublist seen l : keep_first f seen l `sublist_of` l.
Proof.
  revert seen. induction l as [|y l IH]; intros seen; simpl; [done|].
  case_decide; [by apply sublist_cons | by apply sublist_skip].
Qed.

Lemma keep_first_NoDup seen l : NoDup (f <$> keep_first f seen l).
Proof.
  revert seen. induction l as [|y l IH]; intros seen; simpl; [constructor|].
  case_decide; [done|]. simpl. constructor; [|done].
  intros (x & Hfx & Hx)%list_elem_of_fmap.
  apply keep_first_elem in Hx as [_ Hx]. apply Hx. apply elem_of_cons. by left.
Qed.

(** Of the rows of key [k], exactly the first one is kept. *)
Lemma keep_first_filter_key k seen l :
  filter (λ x, f x = k) (keep_first f seen l) =
  if decide (k ∈ seen) then [] else option_list (head (filter (λ x, f x = k) l)).
Proof.
  revert seen. induction l as [|y l IH]; intros seen; simpl.
  { by case_decide. }
  destruct (decide (f y ∈ seen)) as [Hy|Hy].
  - rewrite IH. case_decide; [done|].
    rewrite filter_cons_False; [done|]. by intros <-.
  - destruct (decide (f y = k)) as [<-|Hne].
    + rewrite !filter_cons_True by done. rewrite IH.
      rewrite decide_True by left. by rewrite decide_False.
    + rewrite !filter_cons_False by done. rewrite IH.
      destruct (decide (k ∈ seen)) as [Hk|Hk].
      * rewrite decide_True; [done | by right].
      * rewrite decide_False; [done|]. intros [->|?]%elem_of_cons; done.
Qed.

Lemma keep_first_seen_equiv s1 s2 l :
  (∀ y, y ∈ l → f y ∈ s1 ↔ f y ∈ s2) → keep_first f s1 l = keep_first f s2 l.
Proof.
  revert s1 s2. induction l as [|y l IH]; intros s1 s2 Hs; simpl; [done|].
  assert (f y ∈ s1 ↔ f y ∈ s2) as Hy by (apply Hs; left).
  assert (∀ z, z ∈ l → f z ∈ s1 ↔ f z ∈ s2) as Hl by (intros z Hz; apply Hs; by right).
  assert (∀ z, z ∈ l → f z ∈ f y :: s1 ↔ f z ∈ f y :: s2) as Hcons.
  { intros z Hz. rewrite !elem_of_cons. by rewrite (Hl z Hz). }
  destruct (decide (f y ∈ s1)), (decide (f y ∈ s2)); try tauto.
  - by apply IH.
  - f_equal. by apply IH.
Qed.

(** A filter that looks at the key only can be applied before or after. *)
Lemma keep_first_filter_comm (P : A → Prop) `{∀ x, Decision (P x)} seen l :
  (∀ x y, f x = f y → P x → P y) →
  filter P (keep_first f seen l) = keep_first f seen (filter P l).
Proof.
  intros HP. revert seen. induction l as [|y l IH]; intros seen; simpl; [done|].
  destruct (decide (f y ∈ seen)) as [Hy|Hy].
  - rewrite IH. destruct (decide (P y)) as [Py|Py].
    + rewrite filter_cons_True by done. simpl. by rewrite decide_True.
    + by rewrite filter_cons_False.
  - destruct (decide (P y)) as [Py|Py].
    + rewrite !filter_cons_True by done. simpl. rewrite decide_False by done.
      by rewrite IH.
    + rewrite !filter_cons_False by done. rewrite IH.
      apply keep_first_seen_equiv. intros z Hz.
      apply list_elem_of_filter in Hz as [Pz _].
      rewrite elem_of_cons. split; [|by right].
      intros [Hzy|?]; [|done]. destruct Py. by apply (HP z y).
Qed.

End keep_first.

(** ** Columns and deduplication *)

Lemma filter_id {A} (P : A → Prop) `{∀ x, Decision (P x)} (l : list A) :
  Forall P l → filter P l = l.
Proof.
  induction 1 as [|x l Hx _ IH]; [done|]. by rewrite filter_cons_True, IH.
Qed.

Lemma filter_fmap {A B} (f : A → B) (P : B → Prop) `{∀ y, Decision (P y)} (l : list A) :
  filter P (f <$> l) = f <$> filter (λ x, P (f x)) l.
Proof.
  induction l as [|x l IH]; [done|]. cbn [fmap list_fmap].
  destruct (decide (P (f x))).
  - rewrite !filter_cons_True by done. cbn. by rewrite IH.
  - by rewrite !filter_cons_False.
Qed.

Lemma require_columns_Ok cs df :
  require_columns cs df = Ok () ↔ Forall (λ c, c ∈ columns df) cs.
Proof.
  unfold require_columns. split.
  - destruct (filter _ cs) as [|c l] eqn:E; [intros _|done].
    apply Forall_forall. intros c Hc.
    destruct (decide (c ∈ columns df)) as [|Hn]; [done|].
    assert (c ∈ filter (λ c, c ∉ columns df) cs) as Hf by by apply list_elem_of_filter.
    rewrite E in Hf. by inversion Hf.
  - intros Hall. destruct (filter _ cs) as [|c l] eqn:E; [done|].
    assert (c ∈ filter (λ c, c ∉ columns df) cs) as Hf by (rewrite E; left).
    apply list_elem_of_filter in Hf as [Hn Hc].
    rewrite Forall_forall in Hall. destruct Hn. by apply Hall.
Qed.

Lemma require_columns_Raise cs df e :
  require_columns cs df = Raise e →
  e = KeyError_labels (filter (λ c, c ∉ columns df) cs) ∧ ∃ c, c ∈ cs ∧ c ∉ columns df.
Proof.
  unfold require_columns. destruct (filter _ cs) as [|c l] eqn:E; [done|].
  intros [= <-]. split; [done|]. exists c.
  assert (c ∈ filter (λ c, c ∉ columns df) cs) as Hf by (rewrite E; left).
  apply list_elem_of_filter in Hf as [Hn Hc]. done.
Qed.

Lemma require_columns_cases cs df :
  require_columns cs df = Ok () ∨
  require_columns cs df = Raise (KeyError_labels (filter (λ c, c ∉ columns df) cs)) ∧
  ∃ c, c ∈ cs ∧ c ∉ columns df.
Proof.
  destruct (require_columns cs df) as [[]|e] eqn:E; [by left|right].
  destruct (require_columns_Raise _ _ _ E) as (-> & ?). done.
Qed.

Lemma require_columns_same cs df df' :
  columns df' = columns df → require_columns cs df' = require_columns cs df.
Proof. unfold require_columns. by intros ->. Qed.

(** Deduplication on the key columns: the rows without a missing key, the
    first of each key. *)
Lemma dedupe_on_cases subset df :
  subset ≠ [] →
  (Forall (λ c, c ∈ columns df) subset ∧
   dedupe_on subset df =
     Ok {| columns := columns df;
           rows := keep_first (key_of subset) [] (filter (notna_on subset) (rows df)) |}) ∨
  (¬ Forall (λ c, c ∈ columns df) subset ∧
   dedupe_on subset df = Raise (KeyError_labels (filter (λ c, c ∉ columns df) subset))).
Proof.
  intros Hne. unfold dedupe_on, drop_duplicates, dropna.
  destruct (require_columns_cases subset df) as [E|(E & c & Hc & Hn)].
  - left. split; [by apply require_columns_Ok|].
    destruct (empty df) eqn:Hemp; cbn [mbind result_bind].
    + rewrite E. cbn [mbind result_bind]. unfold empty in Hemp.
      apply bool_decide_eq_true in Hemp as [Hcols|Hrows].
      * apply require_columns_Ok in E. destruct subset as [|c cs]; [done|].
        apply Forall_cons in E as [E _]. rewrite Hcols in E. by inversion E.
      * by rewrite Hrows.
    + rewrite E. cbn [mbind result_bind]. destruct subset as [|c cs]; [done|].
      cbn [mbind result_bind]. rewrite (require_columns_same _ df) by done.
      rewrite E. cbn [mbind result_bind rows columns].
      by rewrite keep_first_filter_comm by (intros x y; apply notna_on_key).
  - right. split; [rewrite Forall_forall; intros Hall; auto|].
    destruct (empty df); cbn [mbind result_bind]; by rewrite E.
Qed.

Lemma dedupe_on_Ok subset df out :
  subset ≠ [] →
  dedupe_on subset df = Ok out ↔
  Forall (λ c, c ∈ columns df) subset ∧
  out = {| columns := columns df;
           rows := keep_first (key_of subset) [] (filter (notna_on subset) (rows df)) |}.
Proof.
  intros Hne. destruct (dedupe_on_cases subset df Hne) as [[Hc ->]|[Hc ->]].
  - split; [by intros [= <-] | by intros [_ ->]].
  - split; [done | by intros [? _]].
Qed.

Lemma dedupe_on_Raise subset df e :
  subset ≠ [] →
  dedupe_on subset df = Raise e →
  e = KeyError_labels (filter (λ c, c ∉ columns df) subset) ∧
  ¬ Forall (λ c, c ∈ columns df) subset.
Proof.
  intros Hne. destruct (dedupe_on_cases subset df Hne) as [[Hc ->]|[Hc ->]]; [done|].
  by intros [= <-].
Qed.

(** Whatever the key columns, deduplication keeps some of the rows, in
    order. *)
Lemma dedupe_on_sublist subset df out :
  dedupe_on subset df = Ok out → rows out `sublist_of` rows df.
Proof.
  unfold dedupe_on, drop_duplicates, dropna. intros (d & Hd & Ho)%bind_Ok.
  apply bind_Ok in Ho as ([] & _ & [= <-]). cbn [rows].
  etrans; [apply sublist_filter|].
  destruct (empty df); [by injection Hd as <-|].
  apply bind_Ok in Hd as ([] & _ & Hd). destruct subset; [done|].
  injection Hd as <-. apply keep_first_sublist.
Qed.

Lemma assign_result_Ok c f df out :
  assign_result c f df = Ok out ↔
  ∃ rs, Forall2 (λ r r', ∃ v, f r = Ok v ∧ r' = <[c := v]> r) (rows df) rs ∧
        out = {| columns := if decide (c ∈ columns df) then columns df
                            else columns df ++ [c];
                 rows := rs |}.
Proof.
  unfold assign_result. rewrite bind_Ok. split.
  - intros (rs & Hrs & [= <-]). exists rs. split; [|done].
    apply mapM_Ok in Hrs. eapply Forall2_impl; [done|]. simpl.
    intros r r' (v & Hv & [= <-])%bind_Ok. eauto.
  - intros (rs & Hrs & ->). exists rs. split; [|done].
    apply mapM_Ok. eapply Forall2_impl; [done|]. simpl.
    intros r r' (v & Hv & ->). by rewrite Hv.
Qed.

Lemma assign_result_Raise c f df e :
  assign_result c f df = Raise e → ∃ r, r ∈ rows df ∧ f r = Raise e.
Proof.
  unfold assign_result. rewrite bind_Raise. intros [Hm|(? & _ & [=])].
  apply mapM_Raise in Hm as (r & Hr & Hf). exists r. split; [done|].
  apply bind_Raise in Hf as [|(? & _ & [=])]. done.
Qed.

(** ** The shift of the spreadsheet identifiers *)

Section reconcile.
Context `{PandasText}.

Lemma adjust_other table df :
  is_order_table table = false → _adjust_excel_ids table df = Ok df.
Proof. unfold _adjust_excel_ids. by intros ->. Qed.

Lemma adjust_missing table df :
  is_order_table table = true → "OrderID" ∉ columns df →
  _adjust_excel_ids table df =
  Raise (KeyError ("Colonne OrderID introuvable dans le fichier Excel pour la table " +:+ table)).
Proof. unfold _adjust_excel_ids. intros -> ?. by rewrite decide_False. Qed.

Lemma adjust_shift table df :
  is_order_table table = true → "OrderID" ∈ columns df →
  _adjust_excel_ids table df =
  assign_result "OrderID" (λ r, shift_order_id (cell r "OrderID"))
    {| columns := columns df;
       rows := (λ r, <["OrderID" := to_numeric (column "OrderID" df) (cell r "OrderID")]> r)
                 <$> filter (coercible_id df) (rows df) |}.
Proof.
  unfold _adjust_excel_ids. intros -> Hc. rewrite decide_True by done.
  unfold dropna. rewrite (require_columns_same _ df) by (cbn; by rewrite decide_True).
  assert (require_columns ["OrderID"] df = Ok ()) as ->.
  { apply require_columns_Ok. by constructor. }
  cbn [mbind result_bind]. f_equal. unfold assign. cbn [columns rows].
  rewrite decide_True by done. f_equal.
  rewrite filter_fmap. f_equal. apply list_filter_iff. intros r. simpl.
  unfold notna_on, coercible_id. rewrite Forall_singleton. by rewrite cell_insert_eq.
Qed.

Lemma adjust_Ok table df out :
  is_order_table table = true →
  _adjust_excel_ids table df = Ok out ↔
  "OrderID" ∈ columns df ∧ columns out = columns df ∧
  Forall2 (shifted df) (filter (coercible_id df) (rows df)) (rows out).
Proof.
  intros Ht. destruct (decide ("OrderID" ∈ columns df)) as [Hc|Hc].
  - rewrite adjust_shift by done. rewrite assign_result_Ok. cbn [columns rows].
    rewrite decide_True by done. split.
    + intros (rs & Hrs & ->). split; [done|]. split; [done|]. cbn.
      apply Forall2_fmap_l in Hrs. eapply Forall2_impl; [done|]. cbn.
      intros r r' (v & Hv & ->). rewrite cell_insert_eq in Hv.
      unfold shift_order_id in Hv. apply bind_Ok in Hv as (z & Hz & [= <-]).
      exists z. split; [done|]. by rewrite insert_insert_eq.
    + intros (_ & Hcols & Hrs). exists (rows out). split.
      * apply Forall2_fmap_l. eapply Forall2_impl; [done|]. cbn.
        intros r r' (z & Hz & ->). rewrite cell_insert_eq.
        exists (VInt (wrap64 (z + EXCEL_ORDER_OFFSET))).
        unfold shift_order_id. rewrite Hz. split; [done|]. by rewrite insert_insert_eq.
      * destruct out. cbn in *. by subst.
  - rewrite adjust_missing by done. split; [done | by intros [? _]].
Qed.

Lemma isna_as_dtype col v : isna (as_dtype col v) = isna v.
Proof.
  unfold as_dtype. destruct (existsb is_float col), (existsb is_int col);
    destruct v; try done; cbn; apply b64_of_Z_not_nan.
Qed.

(** The identifiers that coerce to a number. *)
Lemma coercible_id_cases df r :
  (datetime64 (column "OrderID" df) = true → coercible_id df r) ∧
  (datetime64 (column "OrderID" df) = false →
   (coercible_id df r ↔
    match cell r "OrderID" with
    | VInt _ | VBool _ => True
    | VFloat f => is_nan f = false
    | VStr s => ∃ n, parse_numeric s = Some n ∧ isna (value_of_number n) = false
    | _ => False
    end)).
Proof.
  unfold coercible_id, to_numeric. split; intros ->; [by destruct (cell r "OrderID")|].
  rewrite isna_as_dtype. destruct (cell r "OrderID") as [| |b|z|f|s|t]; cbn; try done.
  - unfold vfloat. destruct (is_nan f) eqn:E; cbn; [done | by rewrite E].
  - destruct (parse_numeric s) as [n|]; cbn.
    + split; [by exists n | by intros (n' & [= <-] & ?)].
    + split; [done | by intros (n' & [=] & _)].
Qed.

End reconcile.

(** ** The two reconcilers *)

Section reconcilers.
Context `{PandasText}.

Lemma merge_sources_unfold src table key dedupe :
  merge_sources src table key dedupe =
  e ← adjusted table (load_excel src table);
  match combine e (load_sql src table) with
  | None => Ok None
  | Some df =>
      if dedupe then (λ d, Some (drop_column "_source" d)) <$> dedupe_on key df
      else Ok (Some df)
  end.
Proof.
  unfold merge_sources, adjusted, combine, dedupe_on.
  destruct (load_excel src table) as [xl|]; cbn;
    [destruct (_adjust_excel_ids table xl) as [e|]; cbn; [|done]|];
    destruct (load_sql src table) as [s|]; cbn; destruct dedupe; cbn; try done;
    (destruct (drop_duplicates key _) as [d|]; cbn; [|done]; by destruct (dropna key d)).
Qed.

Lemma merge_with_excel_unfold src sql_df table key dedupe :
  merge_with_excel src sql_df table key dedupe =
  e ← adjusted table (load_excel src table);
  match combine e sql_df with
  | None => Ok None
  | Some df => if dedupe then Some <$> dedupe_on key df else Ok (Some df)
  end.
Proof.
  unfold merge_with_excel, adjusted, combine, dedupe_on.
  destruct (load_excel src table) as [xl|]; cbn;
    [destruct (_adjust_excel_ids table xl) as [e|]; cbn; [|done]|];
    destruct sql_df as [s|]; cbn; destruct dedupe; cbn; try done;
    (destruct (drop_duplicates key _) as [d|]; cbn; [|done]; by destruct (dropna key d)).
Qed.

(** C3 (as amended).  When exactly one origin is present and [dedupe] is
    false, both reconcilers return that origin unchanged: the same rows in
    the same order.  The one exception is a spreadsheet of Orders or Order
    Details: a table [out] is the result exactly when the file has the
    column OrderID and the rows of [out] are the rows whose identifier
    coerces to a number, in order, each with the identifier cast to int64
    and shifted by 200000.  An identifier coerces when it is a number or
    text that reads as one; in a column of dates, where pandas reads a
    date as its nanoseconds since 1970, every identifier does. *)
Theorem single_origin_kept_without_dedupe src table key df :
  (load_excel src table = None → load_sql src table = Some df →
     merge_sources src table key false = Ok (Some df) ∧
     merge_with_excel src (Some df) table key false = Ok (Some df)) ∧
  (load_excel src table = Some df → load_sql src table = None →
     is_order_table table = false →
     merge_sources src table key false = Ok (Some df) ∧
     merge_with_excel src None table key false = Ok (Some df)) ∧
  (load_excel src table = Some df → load_sql src table = None →
     is_order_table table = true →
     ∀ out,
       (merge_sources src table key false = Ok (Some out) ↔
        "OrderID" ∈ columns df ∧ columns out = columns df ∧
        Forall2 (shifted df) (filter (coercible_id df) (rows df)) (rows out)) ∧
       (merge_with_excel src None table key false = Ok (Some out) ↔
        merge_sources src table key false = Ok (Some out))) ∧
  (∀ r,
     (datetime64 (column "OrderID" df) = true → coercible_id df r) ∧
     (datetime64 (column "OrderID" df) = false →
      (coercible_id df r ↔
       match cell r "OrderID" with
       | VInt _ | VBool _ => True
       | VFloat f => is_nan f = false
       | VStr s => ∃ n, parse_numeric s = Some n ∧ isna (value_of_number n) = false
       | _ => False
       end))).
Proof.
  split; [|split; [|split]]; [| | |apply coercible_id_cases].
  - intros Hx Hs. rewrite merge_sources_unfold, merge_with_excel_unfold, Hx, Hs. done.
  - intros Hx Hs Ht.
    rewrite merge_sources_unfold, merge_with_excel_unfold, Hx, Hs.
    unfold adjusted. rewrite adjust_other by done. done.
  - intros Hx Hs Ht out.
    rewrite merge_sources_unfold, merge_with_excel_unfold, Hx, Hs.
    split; [|done]. rewrite <- (adjust_Ok table df out Ht).
    unfold adjusted. destruct (_adjust_excel_ids table df) as [d|e]; cbn; [|done].
    split; congruence.
Qed.

End reconcilers.

(** ** Examples for the reconcilers *)

Section reconciler_examples.
#[local] Existing Instance digits_only.

(** C3, witness: the database table alone, [dedupe] false, comes back as
    it is. *)
Lemma single_origin_kept_without_dedupe_witness :
  let src := with_sql "Customers" customers_twice no_sources in
  merge_sources src "Customers" ["CustomerID"] false = Ok (Some customers_twice) ∧
  merge_with_excel src (Some customers_twice) "Customers" ["CustomerID"] false
    = Ok (Some customers_twice).
Proof.
  intros src.
  apply (proj1 (single_origin_kept_without_dedupe src "Customers" ["CustomerID"]
                  customers_twice)); reflexivity.
Defined.

(** C3, counterexample: the database table alone with [dedupe] true loses
    the row that repeats a key and the row without a key. *)
Lemma single_origin_dedupe_drops_rows :
  let src := with_sql "Customers" customers_twice no_sources in
  load_excel src "Customers" = None ∧
  load_sql src "Customers" = Some customers_twice ∧
  length (rows customers_twice) = 3%nat ∧
  ∃ out, merge_sources src "Customers" ["CustomerID"] true = Ok (Some out) ∧
         cells out = [[VStr "ALFKI"; VStr "Alfreds Futterkiste"]] ∧
         out ≠ customers_twice.
Proof.
  intros src. repeat split.
  eexists. split; [vm_compute; reflexivity|]. split; [vm_compute; reflexivity|].
  intros E. apply (f_equal (λ d, length (rows d))) in E. vm_compute in E. discriminate.
Qed.

(** The spreadsheet of orders whose identifiers are a date and an empty
    cell: both rows are kept. *)
Example dated_ids_are_kept :
  result_cells (merge_with_excel (with_excel "Orders" orders_dated no_sources) None
                  "Orders" ["OrderID"] false)
    = Ok (Some [[VInt 836438400000200000]; [VInt (- 2 ^ 63 + 200000)]]).
Proof. by vm_compute. Qed.

End reconciler_examples.

(** ** Deduplication *)

Section dedupe.
Context `{PandasText}.

Lemma key_of_delete_source key (r : gmap string value) :
  "_source" ∉ key → key_of key (delete "_source" r) = key_of key r.
Proof.
  intros Hk. apply key_of_ext. intros c Hc. apply cell_delete_ne. by intros <-.
Qed.

Lemma notna_on_delete_source key (r : gmap string value) :
  "_source" ∉ key → notna_on key r → notna_on key (delete "_source" r).
Proof. intros Hk. apply notna_on_key. by rewrite key_of_delete_source. Qed.

Lemma combine_rows e s all :
  combine e s = Some all →
  rows all = (from_option rows [] e ++ from_option rows [] s)%list.
Proof.
  unfold combine. destruct s as [s|], e as [e|]; intros [= <-]; cbn; try done.
  by rewrite app_nil_r.
Qed.

(** C4 (as amended).  Let [all] be the spreadsheet rows (after the shift)
    followed by the database rows.  With [dedupe] true a reconciler returns
    a table exactly when [all] has the key columns; the table has no row
    with a missing key cell, no two rows of the same key, and for every key
    its rows are: nothing when no row of [all] without a missing key cell
    has that key, and otherwise the single first such row of [all].
    [merge_with_excel] returns that row as it is; [merge_sources] returns it
    without its [_source] cell.  The key columns are at least one and none
    of them is [_source]. *)
Theorem dedupe_keeps_first src table key e all :
  key ≠ [] →
  "_source" ∉ key →
  adjusted table (load_excel src table) = Ok e →
  combine e (load_sql src table) = Some all →
  has_columns key all →
  rows all = (from_option rows [] e ++ from_option rows [] (load_sql src table))%list ∧
  ∃ out out',
    merge_sources src table key true = Ok (Some out) ∧
    merge_with_excel src (load_sql src table) table key true = Ok (Some out') ∧
    Forall (notna_on key) (rows out) ∧ Forall (notna_on key) (rows out') ∧
    NoDup (key_of key <$> rows out) ∧ NoDup (key_of key <$> rows out') ∧
    ∀ k,
      let first := head (filter (λ r, key_of key r = k)
                           (filter (notna_on key) (rows all))) in
      filter (λ r, key_of key r = k) (rows out') = option_list first ∧
      filter (λ r, key_of key r = k) (rows out)
        = delete "_source" <$> option_list first.
Proof.
  intros Hkey Hsrc He Hall Hcols. split; [by apply combine_rows|].
  set (kept := keep_first (key_of key) [] (filter (notna_on key) (rows all))).
  assert (dedupe_on key all = Ok {| columns := columns all; rows := kept |}) as Hd
    by by apply dedupe_on_Ok.
  exists (drop_column "_source" {| columns := columns all; rows := kept |}),
         {| columns := columns all; rows := kept |}.
  rewrite merge_sources_unfold, merge_with_excel_unfold, He. cbn [mbind result_bind].
  rewrite Hall, Hd. cbn [fmap result_fmap drop_column rows columns].
  assert (Forall (notna_on key) kept) as Hna.
  { apply Forall_forall. intros r Hr. apply keep_first_elem in Hr as [Hr _].
    by apply list_elem_of_filter in Hr as [? _]. }
  assert (key_of key <$> (delete "_source" <$> kept) = key_of key <$> kept) as Hkeys.
  { rewrite <- list_fmap_compose. apply list_fmap_ext. intros i r _. cbn.
    by apply key_of_delete_source. }
  repeat split; try done.
  - apply Forall_fmap. eapply Forall_impl; [done|]. intros r. cbn.
    by apply notna_on_delete_source.
  - rewrite Hkeys. apply keep_first_NoDup.
  - apply keep_first_NoDup.
  - unfold kept. by rewrite keep_first_filter_key, decide_False by by inversion 1.
  - rewrite filter_fmap.
    rewrite (list_filter_iff _ (λ r, key_of key r = k))
      by (intros r; by rewrite key_of_delete_source).
    unfold kept. by rewrite keep_first_filter_key, decide_False by by inversion 1.
Qed.

End dedupe.

Ltac by_compute :=
  match goal with |- ?P => apply (@bool_decide_unpack P _) end; vm_compute; exact I.

Section dedupe_examples.
#[local] Existing Instance digits_only.

(** C4, witness: a spreadsheet row and database rows of the same key. *)
Lemma dedupe_keeps_first_witness :
  let src := with_excel "Customers" customers_tagged
               (with_sql "Customers" customers_twice no_sources) in
  ∃ out out',
    merge_sources src "Customers" ["CustomerID"] true = Ok (Some out) ∧
    merge_with_excel src (load_sql src "Customers") "Customers" ["CustomerID"] true
      = Ok (Some out') ∧
    NoDup (key_of ["CustomerID"] <$> rows out) ∧
    NoDup (key_of ["CustomerID"] <$> rows out').
Proof.
  intros src.
  destruct (dedupe_keeps_first src "Customers" ["CustomerID"]
              (Some customers_tagged) (concat customers_tagged customers_twice))
    as (_ & out & out' & Ho & Ho' & _ & _ & Hn & Hn' & _).
  - discriminate.
  - by_compute.
  - reflexivity.
  - reflexivity.
  - unfold has_columns. by_compute.
  - exists out, out'. repeat split; assumption.
Defined.

(** C4, counterexample: the first row of the key ALFKI has the cell
    [_source]; the row [merge_sources] returns for that key has lost it. *)
Lemma dedupe_drops_source_column :
  let src := with_excel "Customers" customers_tagged no_sources in
  ∃ first out r,
    rows customers_tagged = [first] ∧
    merge_sources src "Customers" ["CustomerID"] true = Ok (Some out) ∧
    rows out = [r] ∧
    key_of ["CustomerID"] r = key_of ["CustomerID"] first ∧
    cell first "_source" = VStr "excel" ∧
    cell r "_source" = VNaN ∧
    r ≠ first.
Proof.
  intros src. eexists _, _, _.
  split; [reflexivity|]. split; [vm_compute; reflexivity|].
  split; [reflexivity|].
  split; [vm_compute; reflexivity|]. split; [vm_compute; reflexivity|].
  split; [vm_compute; reflexivity|].
  intros E. apply (f_equal (λ r, cell r "_source")) in E. vm_compute in E. discriminate E.
Qed.

End dedupe_examples.

(** ** The identifiers of the two origins *)

Lemma wrap64_small z : - 2 ^ 63 ≤ z < 2 ^ 63 → wrap64 z = z.
Proof. intros Hz. unfold wrap64. rewrite Z.mod_small; lia. Qed.

Section identifiers.
Context `{PandasText}.

(** C5 (as amended).  For Orders and Order Details, the rows of the
    reconciled table are, in order, the spreadsheet rows whose identifier
    coerces to a number, each with the identifier cast to int64 and shifted
    by 200000 modulo 2^64, followed by the database rows as they are (with
    [dedupe] true: a sublist of these rows, without the column [_source]).
    The shifted identifier is the cast one plus 200000, hence at least
    200000, when the cast one is not negative and below 2^63 - 200000.  A
    spreadsheet identifier 5 with no database table and [dedupe] false
    becomes 200005.  In a column of dates no identifier fails to coerce:
    the 4th of July 1996 is read as its 836438400000000000 nanoseconds
    since 1970 and an empty cell as -2^63. *)
Theorem spreadsheet_ids_shifted src table key dedupe xl out :
  is_order_table table = true →
  load_excel src table = Some xl →
  merge_sources src table key dedupe = Ok (Some out) →
  (∃ shifted_rows,
    Forall2 (λ r r', ∃ z,
        astype_int (to_numeric (column "OrderID" xl) (cell r "OrderID")) = Ok z ∧
        r' = <["OrderID" := VInt (wrap64 (z + 200000))]> r ∧
        (0 ≤ z < 2 ^ 63 - 200000 →
         cell r' "OrderID" = VInt (z + 200000) ∧ 200000 ≤ z + 200000))
      (filter (coercible_id xl) (rows xl)) shifted_rows ∧
    let all : list (gmap string value) :=
      (shifted_rows ++ from_option rows [] (load_sql src table))%list in
    if dedupe then rows out `sublist_of` (delete "_source" <$> all)
    else rows out = all) ∧
  result_cells (merge_with_excel (with_excel "Orders" orders_five no_sources) None
                  "Orders" ["OrderID"] false) = Ok (Some [[VInt 200005]]) ∧
  result_cells (merge_sources (with_excel "Orders" orders_five no_sources)
                  "Orders" ["OrderID"] false) = Ok (Some [[VInt 200005]]) ∧
  result_cells (merge_sources (with_excel "Orders" orders_dated no_sources)
                  "Orders" ["OrderID"] false)
    = Ok (Some [[VInt 836438400000200000]; [VInt (- 2 ^ 63 + 200000)]]).
Proof.
  intros Ht Hxl Hm. split; [|split; [|split]; by vm_compute].
  rewrite merge_sources_unfold, Hxl in Hm. unfold adjusted in Hm.
  apply bind_Ok in Hm as (e & He & Hm).
  apply fmap_Ok in He as (e' & He & ->).
  apply (adjust_Ok _ _ _ Ht) in He as (_ & _ & Hsh).
  exists (rows e'). split.
  - eapply Forall2_impl; [done|]. cbn. intros r r' (z & Hz & ->).
    exists z. split; [done|]. split; [done|]. intros Hr.
    unfold EXCEL_ORDER_OFFSET. rewrite cell_insert_eq, wrap64_small by lia.
    split; [done | lia].
  - destruct (combine (Some e') (load_sql src table)) as [all|] eqn:Hall; [|done].
    apply combine_rows in Hall. cbn in Hall. cbn zeta. rewrite <- Hall.
    destruct dedupe.
    + apply fmap_Ok in Hm as (d & Hd & [= ->]).
      apply dedupe_on_sublist in Hd. cbn. by apply fmap_sublist.
    + by injection Hm as <-.
Qed.

End identifiers.

Section identifier_examples.
#[local] Existing Instance digits_only.

(** C5, witness: the spreadsheet of orders with identifier 5. *)
Lemma spreadsheet_ids_shifted_witness :
  result_cells (merge_sources (with_excel "Orders" orders_five no_sources)
                  "Orders" ["OrderID"] false) = Ok (Some [[VInt 200005]]).
Proof.
  refine (proj1 (proj2 (proj2
    (spreadsheet_ids_shifted (with_excel "Orders" orders_five no_sources)
       "Orders" ["OrderID"] false orders_five
       {| columns := ["OrderID"]; rows := [row_of ["OrderID"] [VInt 200005]] |} _ _ _))));
    by vm_compute.
Defined.

(** C5, counterexample: a negative spreadsheet identifier stays below
    200000 after the shift. *)
Lemma negative_id_below_offset :
  let src := with_excel "Orders" orders_negative no_sources in
  is_order_table "Orders" = true ∧
  result_cells (merge_sources src "Orders" ["OrderID"] false)
    = Ok (Some [[VInt 199995]]) ∧
  result_cells (merge_with_excel src None "Orders" ["OrderID"] false)
    = Ok (Some [[VInt 199995]]) ∧
  ¬ (200000 ≤ 199995).
Proof. intros src. repeat split; first [by vm_compute | lia]. Qed.

End identifier_examples.

(** ** When a reconciler aborts *)

Section aborts.
Context `{PandasText}.

Lemma to_numeric_object_cases v :
  to_numeric_object v = VNaN ∨ (∃ b, to_numeric_object v = VBool b) ∨
  (∃ z, to_numeric_object v = VInt z) ∨
  ∃ f, to_numeric_object v = VFloat f ∧ is_nan f = false.
Proof.
  assert (∀ f, vfloat f = VNaN ∨ ∃ f', vfloat f = VFloat f' ∧ is_nan f' = false) as Hf.
  { intros f. unfold vfloat. destruct (is_nan f) eqn:E; eauto. }
  destruct v as [| |b|z|f|s|t]; cbn; eauto 6.
  - destruct (Hf f) as [|]; eauto.
  - destruct (parse_numeric s) as [[z|f]|]; cbn; eauto 6.
    destruct (Hf f) as [|]; eauto.
Qed.

Lemma to_numeric_cases col v :
  to_numeric col v = VNaN ∨ (∃ b, to_numeric col v = VBool b) ∨
  (∃ z, to_numeric col v = VInt z) ∨
  ∃ f, to_numeric col v = VFloat f ∧ is_nan f = false.
Proof.
  unfold to_numeric. destruct (datetime64 col); [destruct v; eauto|].
  unfold as_dtype.
  destruct (to_numeric_object_cases v) as [->|[[b ->]|[[z ->]|(f & -> & Hf)]]];
    destruct (existsb is_float (to_numeric_object <$> col)),
             (existsb is_int (to_numeric_object <$> col));
    eauto 6 using b64_of_Z_not_nan.
Qed.

(** The cast of a coerced identifier fails on the infinities only. *)
Lemma astype_int_to_numeric col v :
  isna (to_numeric col v) = false →
  (∃ z, astype_int (to_numeric col v) = Ok z) ∨
  (∃ s, to_numeric col v = VFloat (S754_infinity s)) ∧
  astype_int (to_numeric col v) =
    Raise (ValueError "Cannot convert non-finite values (NA or inf) to integer").
Proof.
  destruct (to_numeric_cases col v) as [->|[[b ->]|[[z ->]|(f & -> & Hf)]]]; cbn;
    [done | eauto | eauto |].
  intros _. destruct f as [s|s| |s m e]; cbn; eauto. done.
Qed.

Lemma adjust_is_ok table df :
  is_ok (_adjust_excel_ids table df) = false ↔
  lacks_order_id table df ∨ infinite_order_id table df.
Proof.
  unfold lacks_order_id, infinite_order_id.
  destruct (is_order_table table) eqn:Ht; [|rewrite adjust_other by done; cbn; naive_solver].
  destruct (decide ("OrderID" ∈ columns df)) as [Hc|Hc];
    [|rewrite adjust_missing by done; cbn; naive_solver].
  destruct (_adjust_excel_ids table df) as [out|e] eqn:E; cbn.
  - split; [done|]. intros [[_ ?]|(_ & _ & r & s & Hr & Hinf)]; [done|].
    apply (adjust_Ok _ _ _ Ht) in E as (_ & _ & Hsh).
    assert (r ∈ filter (coercible_id df) (rows df)) as Hr'.
    { apply list_elem_of_filter. split; [|done]. unfold coercible_id. by rewrite Hinf. }
    apply list_elem_of_lookup in Hr' as [i Hi].
    destruct (Forall2_lookup_l _ _ _ _ _ Hsh Hi) as (r' & _ & z & Hz & _).
    rewrite Hinf in Hz. done.
  - split; [intros _; right|done]. split; [done|]. split; [done|].
    rewrite adjust_shift in E by done.
    apply assign_result_Raise in E as (r' & Hr' & He). cbn in Hr'.
    apply list_elem_of_fmap in Hr' as (r & -> & Hr).
    apply list_elem_of_filter in Hr as [Hco Hr].
    rewrite cell_insert_eq in He. unfold shift_order_id in He.
    destruct (astype_int_to_numeric _ (cell r "OrderID") Hco) as [[z Hz]|[[s Hs] _]].
    + by rewrite Hz in He.
    + eauto.
Qed.

Lemma adjust_config_error table df m :
  _adjust_excel_ids table df = Raise (KeyError m) ↔
  lacks_order_id table df ∧ KeyError m = config_error table.
Proof.
  unfold lacks_order_id.
  destruct (is_order_table table) eqn:Ht; [|rewrite adjust_other by done; naive_solver].
  destruct (decide ("OrderID" ∈ columns df)) as [Hc|Hc].
  - split; [|naive_solver]. rewrite adjust_shift by done.
    intros (r' & Hr' & He)%assign_result_Raise. cbn in Hr'.
    apply list_elem_of_fmap in Hr' as (r & -> & Hr).
    apply list_elem_of_filter in Hr as [Hco Hr].
    rewrite cell_insert_eq in He. unfold shift_order_id in He.
    destruct (astype_int_to_numeric _ (cell r "OrderID") Hco) as [[z Hz]|[_ Hz]];
      by rewrite Hz in He.
  - rewrite adjust_missing by done. unfold config_error. naive_solver.
Qed.

End aborts.

Section aborts_of_reconcilers.
Context `{PandasText}.

Lemma merge_sources_reconcile_with src table key dedupe :
  merge_sources src table key dedupe =
  reconcile_with (drop_column "_source") (load_excel src table) (load_sql src table)
    table key dedupe.
Proof. apply merge_sources_unfold. Qed.

Lemma merge_with_excel_reconcile_with src sql_df table key dedupe :
  merge_with_excel src sql_df table key dedupe =
  reconcile_with id (load_excel src table) sql_df table key dedupe.
Proof. apply merge_with_excel_unfold. Qed.

Lemma adjusted_is_ok table df_excel :
  is_ok (adjusted table df_excel) = false ↔
  ∃ xl, df_excel = Some xl ∧ (lacks_order_id table xl ∨ infinite_order_id table xl).
Proof.
  destruct df_excel as [xl|]; cbn.
  - split.
    + intros Hf. exists xl. split; [done|]. apply adjust_is_ok.
      by destruct (_adjust_excel_ids table xl).
    + intros (? & [= <-] & Hd). apply adjust_is_ok in Hd.
      by destruct (_adjust_excel_ids table xl).
  - split; [done | by intros (? & ? & _)].
Qed.

Lemma adjusted_config_error table df_excel m :
  adjusted table df_excel = Raise (KeyError m) ↔
  (∃ xl, df_excel = Some xl ∧ lacks_order_id table xl) ∧ KeyError m = config_error table.
Proof.
  destruct df_excel as [xl|]; cbn.
  - transitivity (_adjust_excel_ids table xl = Raise (KeyError m)).
    { destruct (_adjust_excel_ids table xl); cbn; split; congruence. }
    rewrite adjust_config_error. split.
    + intros [? ?]. eauto.
    + by intros [(? & [= <-] & ?) ?].
  - split; [done | by intros [(? & ? & _) _]].
Qed.

Lemma dedupe_on_no_message subset df m : dedupe_on subset df ≠ Raise (KeyError m).
Proof.
  assert (∀ d, require_columns subset d ≠ Raise (KeyError m)) as Hreq.
  { intros d. unfold require_columns. by destruct (filter _ subset). }
  unfold dedupe_on. intros Heq. apply bind_Raise in Heq as [Heq|(d & _ & Heq)].
  - unfold drop_duplicates in Heq. destruct (empty df); [done|].
    apply bind_Raise in Heq as [Heq|([] & _ & Heq)]; [by eapply Hreq|].
    by destruct subset.
  - unfold dropna in Heq.
    apply bind_Raise in Heq as [Heq|(? & _ & Heq)]; [by eapply Hreq | done].
Qed.

Lemma reconcile_with_aborts post df_excel df_sql table key dedupe :
  key ≠ [] →
  is_ok (reconcile_with post df_excel df_sql table key dedupe) = false ↔
  (∃ xl, df_excel = Some xl ∧ (lacks_order_id table xl ∨ infinite_order_id table xl)) ∨
  lacks_key_column df_excel df_sql table key dedupe.
Proof.
  intros Hkey. rewrite <- adjusted_is_ok. unfold reconcile_with, lacks_key_column.
  destruct (adjusted table df_excel) as [e|err] eqn:He; cbn; [|split; [by left | done]].
  destruct (combine e df_sql) as [all|] eqn:Hall; cbn.
  - destruct dedupe; cbn.
    + destruct (dedupe_on key all) as [d|err] eqn:Hd; cbn.
      * apply dedupe_on_Ok in Hd as [Hcols _]; [|done]. split; [done|].
        intros [|(_ & e' & all' & [= <-] & Hall' & Hn)]; [done|].
        rewrite Hall in Hall'. injection Hall' as <-. done.
      * apply dedupe_on_Raise in Hd as [_ Hn]; [|done]. split; [|done]. intros _. right.
        split; [done|]. by exists e, all.
    + split; [done|]. by intros [|[? _]].
  - split; [done|]. intros [|(_ & e' & all' & [= <-] & Hall' & _)]; [done|].
    by rewrite Hall in Hall'.
Qed.

Lemma reconcile_with_config_error post df_excel df_sql table key dedupe m :
  reconcile_with post df_excel df_sql table key dedupe = Raise (KeyError m) ↔
  (∃ xl, df_excel = Some xl ∧ lacks_order_id table xl) ∧ KeyError m = config_error table.
Proof.
  rewrite <- adjusted_config_error. unfold reconcile_with.
  destruct (adjusted table df_excel) as [e|err] eqn:He; cbn; [|done].
  destruct (combine e df_sql) as [all|]; cbn; [|done].
  destruct dedupe; cbn; [|done].
  destruct (dedupe_on key all) as [d|err] eqn:Hd; cbn; [done|].
  split; [|done]. intros [= ->]. by apply dedupe_on_no_message in Hd.
Qed.

End aborts_of_reconcilers.

Section abort_iff.
Context `{PandasText}.

(** C8 (as amended).  A reconciler raises the configuration error (the
    [KeyError] with the message naming the table) exactly when a spreadsheet
    is present for Orders or Order Details (the name lower-cased, its
    underscores read as spaces, trimmed of the white space of Unicode) and
    lacks the column OrderID, and it raises no other [KeyError] with a
    message.  It stops on an exception exactly in three cases, the key
    columns being at least one: that one; such a spreadsheet has an
    identifier that coerces to an infinity, on which the cast to an integer
    raises; [dedupe] is set and the rows put together lack a key column.
    So the absence of a source never aborts, and neither does an identifier
    that fails to coerce. *)
Theorem reconcile_aborts_iff src sql_df table key dedupe :
  key ≠ [] →
  (∀ m, merge_sources src table key dedupe = Raise (KeyError m) ↔
        (∃ xl, load_excel src table = Some xl ∧ lacks_order_id table xl) ∧
        KeyError m = config_error table) ∧
  (∀ m, merge_with_excel src sql_df table key dedupe = Raise (KeyError m) ↔
        (∃ xl, load_excel src table = Some xl ∧ lacks_order_id table xl) ∧
        KeyError m = config_error table) ∧
  (is_ok (merge_sources src table key dedupe) = false ↔
     (∃ xl, load_excel src table = Some xl ∧
            (lacks_order_id table xl ∨ infinite_order_id table xl)) ∨
     lacks_key_column (load_excel src table) (load_sql src table) table key dedupe) ∧
  (is_ok (merge_with_excel src sql_df table key dedupe) = false ↔
     (∃ xl, load_excel src table = Some xl ∧
            (lacks_order_id table xl ∨ infinite_order_id table xl)) ∨
     lacks_key_column (load_excel src table) sql_df table key dedupe).
Proof.
  intros Hkey. rewrite merge_sources_reconcile_with, merge_with_excel_reconcile_with.
  split; [|split; [|split]].
  - intros m. apply reconcile_with_config_error.
  - intros m. apply reconcile_with_config_error.
  - by apply reconcile_with_aborts.
  - by apply reconcile_with_aborts.
Qed.

End abort_iff.

Section abort_examples.
#[local] Existing Instance digits_only.

(** C8, witness: the orders spreadsheet whose identifiers are text, two of
    them not numbers; the reconciler goes on. *)
Lemma reconcile_aborts_iff_witness :
  let src := with_excel "Orders" orders_text_ids no_sources in
  ¬ ((∃ xl, load_excel src "Orders" = Some xl ∧
            (lacks_order_id "Orders" xl ∨ infinite_order_id "Orders" xl)) ∨
     lacks_key_column (load_excel src "Orders") (load_sql src "Orders")
       "Orders" ["OrderID"] false).
Proof.
  intros src Hab.
  assert (["OrderID"] ≠ []) as Hkey by discriminate.
  apply (proj1 (proj2 (proj2 (reconcile_aborts_iff src None "Orders" ["OrderID"] false
                                Hkey)))) in Hab.
  vm_compute in Hab. discriminate Hab.
Defined.

(** C8, counterexample: the spreadsheet of Customers, which is not an
    order table, lacks the key column; with [dedupe] set both reconcilers
    abort. *)
Lemma missing_key_column_aborts :
  let src := with_excel "Customers" customers_no_key no_sources in
  is_order_table "Customers" = false ∧
  merge_sources src "Customers" ["CustomerID"] true
    = Raise (KeyError_labels ["CustomerID"]) ∧
  merge_with_excel src None "Customers" ["CustomerID"] true
    = Raise (KeyError_labels ["CustomerID"]).
Proof. intros src. repeat split; by vm_compute. Qed.

(** The names that make an order table, and the configuration error for a
    name that ends with a no-break space. *)
Example order_table_names :
  Forall (λ t, is_order_table t = true)
    ["Orders"; "orders"; " ORDER_DETAILS "; "Order Details" +:+ nbsp;
     wide_space +:+ "Orders" +:+ nbsp] ∧
  Forall (λ t, is_order_table t = false)
    ["Customers"; "Orders2"; "Or ders"; "Orders" +:+ nbsp +:+ "x"] ∧
  merge_sources (with_excel ("Orders" +:+ nbsp) customers_no_key no_sources)
    ("Orders" +:+ nbsp) ["OrderID"] false = Raise (config_error ("Orders" +:+ nbsp)).
Proof. split; [|split]; [repeat constructor..|]; by vm_compute. Qed.

(** Identifiers that fail to coerce are dropped and the run goes on. *)
Example coercion_failure_goes_on :
  result_cells (merge_sources (with_excel "Orders" orders_text_ids no_sources)
                  "Orders" ["OrderID"] false) = Ok (Some [[VInt 200017]]).
Proof. by vm_compute. Qed.

End abort_examples.

(** ** The detail rows and their summary *)

Lemma require_column_Ok c df : require_column c df = Ok () ↔ c ∈ columns df.
Proof. unfold require_column. by case_decide. Qed.

Lemma columns_assign c f df c' :
  c' ∈ columns (assign c f df) ↔ c' ∈ columns df ∨ c' = c.
Proof.
  unfold assign. cbn. case_decide.
  - split; [by left | by intros [?| ->]].
  - rewrite elem_of_app, list_elem_of_singleton. done.
Qed.

Ltac cell_simpl :=
  repeat first
    [ rewrite cell_insert_eq
    | rewrite cell_insert_ne by done
    | rewrite cell_delete_ne by done
    | rewrite cell_delete_eq
    | rewrite cell_empty ].

Lemma column_assign_ne c c' f df : c ≠ c' → column c (assign c' f df) = column c df.
Proof.
  intros Hne. unfold column, assign. cbn [rows]. rewrite <- list_fmap_compose.
  apply list_fmap_ext. intros i r _. cbn. by rewrite cell_insert_ne.
Qed.

Section details.
Context `{PandasText}.

Lemma normalize_details_Ok od nd :
  normalize_details od = Ok nd →
  rows nd = normalize_row od <$> rows od ∧
  ∀ c, c ∈ columns nd ↔
       c ∈ columns od ∨ c ∈ ["Discount"; "Quantity"; "UnitPrice"; "LineTotal"; "DetailCount"].
Proof.
  unfold normalize_details. intros Hn.
  apply bind_Ok in Hn as ([] & _ & Hn). apply bind_Ok in Hn as ([] & _ & Hn).
  apply bind_Ok in Hn as ([] & _ & Hn). injection Hn as <-. split.
  - cbn [rows assign]. rewrite <- !list_fmap_compose.
    rewrite !column_assign_ne by done. done.
  - intros c. rewrite !columns_assign. set_solver.
Qed.

Lemma normalize_details_returns od :
  has_columns ["Discount"; "Quantity"; "UnitPrice"] od →
  ∃ nd, normalize_details od = Ok nd.
Proof.
  unfold has_columns. rewrite !Forall_cons. intros (Hd & Hq & Hu & _).
  unfold normalize_details.
  rewrite (proj2 (require_column_Ok _ _) Hd). cbn [mbind result_bind].
  rewrite (proj2 (require_column_Ok "Quantity" _)) by (apply columns_assign; by left).
  cbn [mbind result_bind].
  rewrite (proj2 (require_column_Ok "UnitPrice" _))
    by (rewrite !columns_assign; by do 2 left).
  by eexists.
Qed.

(** The cells of a normalized detail row. *)
Lemma normalize_row_cells od r :
  let n := normalize_row od r in
  cell n "OrderID" = cell r "OrderID" ∧
  cell n "Discount" = numeric_or_zero (column "Discount" od) (cell r "Discount") ∧
  cell n "Quantity" = numeric_or_zero (column "Quantity" od) (cell r "Quantity") ∧
  cell n "UnitPrice" = numeric_or_zero (column "UnitPrice" od) (cell r "UnitPrice") ∧
  cell n "LineTotal" =
    num_mul (num_mul (cell n "UnitPrice") (cell n "Quantity"))
            (num_sub (VInt 1) (cell n "Discount")) ∧
  cell n "DetailCount" = VInt 1.
Proof.
  unfold normalize_row, line_total. repeat split; by cell_simpl.
Qed.

Lemma as_dtype_nan col : as_dtype col VNaN = VNaN.
Proof. unfold as_dtype. by destruct (existsb is_float col), (existsb is_int col). Qed.

Lemma as_dtype_float col f : as_dtype col (VFloat f) = VFloat f.
Proof. unfold as_dtype. by destruct (existsb is_float col), (existsb is_int col). Qed.

Lemma as_dtype_int col z :
  as_dtype col (VInt z) = if existsb is_float col then VFloat (b64_of_Z z) else VInt z.
Proof. unfold as_dtype. by destruct (existsb is_float col), (existsb is_int col). Qed.

Lemma datetime64_int col z : VInt z ∈ col → datetime64 col = false.
Proof.
  intros Hin. unfold datetime64. apply andb_false_iff. left.
  apply not_true_is_false. intros Hall. rewrite forallb_forall in Hall.
  by specialize (Hall (VInt z) (proj1 (list_elem_of_In _ _) Hin)).
Qed.

(** A column of integers stays one, and a column with a float or a missing
    cell becomes a column of floats. *)
Lemma float_column_ints col :
  Forall (λ v, ∃ z, v = VInt z) col → existsb is_float (to_numeric_object <$> col) = false.
Proof. induction 1 as [|v l [z ->] _ IH]; [done|]. cbn. exact IH. Qed.

Lemma float_column_missing col v :
  v ∈ col → isna v = true ∨ (∃ f, v = VFloat f) →
  existsb is_float (to_numeric_object <$> col) = true.
Proof.
  intros Hin Hv. apply existsb_exists. exists (to_numeric_object v). split.
  - apply list_elem_of_In, list_elem_of_fmap. by exists v.
  - destruct Hv as [Hv|[f ->]]; [destruct v as [| | | |f| |]; try done|];
      cbn; unfold vfloat; by destruct (is_nan f).
Qed.

(** What [pd.to_numeric(...).fillna(0.0)] makes of the cell [v] of the
    column [col]. *)
Lemma numeric_or_zero_cases col v :
  let w := numeric_or_zero col v in
  let zero := VFloat (S754_zero false) in
  isna w = false ∧
  (datetime64 col = true →
     w = VInt (match v with VTime t => epoch_nanos t | _ => INT64_MIN end)) ∧
  (datetime64 col = false →
     (isna v = true → w = zero) ∧
     (∀ t, v = VTime t → w = zero) ∧
     (∀ s, v = VStr s → parse_numeric s = None → w = zero) ∧
     (∀ f, v = VFloat f → is_nan f = false → w = VFloat f) ∧
     (∀ z, v = VInt z →
        (Forall (λ v', ∃ z', v' = VInt z') col → w = VInt z) ∧
        (∀ v', v' ∈ col → isna v' = true ∨ (∃ f, v' = VFloat f) → w = VFloat (b64_of_Z z)))).
Proof.
  intros w zero. unfold w, numeric_or_zero. split; [|split].
  - destruct (to_numeric_cases col v) as [->|[[b ->]|[[z ->]|(f & -> & Hf)]]]; try done.
    unfold fillna. cbn. by rewrite Hf.
  - intros Hd. unfold to_numeric. rewrite Hd. by destruct v.
  - intros Hd. unfold to_numeric. rewrite Hd.
    split; [|split; [|split; [|split]]].
    + intros Hv. assert (to_numeric_object v = VNaN) as ->; [|by rewrite as_dtype_nan].
      destruct v as [| | | |f| |]; try done. cbn in *. unfold vfloat. by rewrite Hv.
    + intros t ->. cbn. by rewrite as_dtype_nan.
    + intros s -> Hs. cbn. rewrite Hs. cbn. by rewrite as_dtype_nan.
    + intros f -> Hf. cbn. unfold vfloat. rewrite Hf, as_dtype_float.
      unfold fillna. cbn. by rewrite Hf.
    + intros z ->. cbn [to_numeric_object]. rewrite as_dtype_int. split.
      * intros Hall. by rewrite float_column_ints.
      * intros v' Hin Hv'. rewrite (float_column_missing col v') by done.
        unfold fillna. cbn. by rewrite b64_of_Z_not_nan.
Qed.

End details.

Lemma NoDup_fmap_filter_key {A K} `{EqDecision K} (f : A → K) (k : K) (l : list A) :
  NoDup (f <$> l) →
  filter (λ x, f x = k) l = option_list (head (filter (λ x, f x = k) l)).
Proof.
  induction l as [|x l IH]; [done|]. cbn [fmap list_fmap].
  intros [Hx Hl]%NoDup_cons. destruct (decide (f x = k)) as [<-|Hne].
  - rewrite filter_cons_True by done. cbn. f_equal.
    apply elem_of_nil_inv. intros y [Hy Hin]%list_elem_of_filter.
    apply Hx. rewrite <- Hy. by apply list_elem_of_fmap_2.
  - rewrite filter_cons_False by done. by apply IH.
Qed.

(** A sum of [n] ones is [n] as long as it fits. *)
Lemma foldl_add_ones (l : list value) (a : Z) :
  Forall (λ v, v = VInt 1) l → 0 ≤ a → a + Z.of_nat (length l) < 2 ^ 63 →
  foldl num_add (VInt a) (filter notna l) = VInt (a + Z.of_nat (length l)).
Proof.
  intros Hl. revert a. induction Hl as [|v l -> _ IH]; intros a Ha Hb.
  { cbn. by rewrite Z.add_0_r. }
  rewrite filter_cons_True by done. cbn [foldl length] in *.
  replace (num_add (VInt a) (VInt 1)) with (VInt (a + 1))
    by (unfold num_add, num_op; cbn; rewrite wrap64_small; [done | lia]).
  rewrite IH by lia. f_equal. lia.
Qed.

Lemma existsb_is_float_ints (l : list value) :
  Forall (λ v, ∃ z, v = VInt z) l → existsb is_float l = false.
Proof. induction 1 as [|v l [z ->] _ IH]; [done|]. cbn. exact IH. Qed.

Lemma col_sum_ones (l : list value) :
  Forall (λ v, v = VInt 1) l → Z.of_nat (length l) < 2 ^ 63 →
  col_sum l = VInt (Z.of_nat (length l)).
Proof.
  intros Hl Hb. unfold col_sum. rewrite existsb_is_float_ints.
  - by rewrite foldl_add_ones.
  - eapply Forall_impl; [exact Hl|]. intros v ->. by exists 1.
Qed.

Lemma wrap64_add_l a b : wrap64 (wrap64 a + b) = wrap64 (a + b).
Proof.
  unfold wrap64. f_equal.
  replace ((a + 2 ^ 63) mod 2 ^ 64 - 2 ^ 63 + b + 2 ^ 63)
    with ((a + 2 ^ 63) mod 2 ^ 64 + b) by lia.
  rewrite Zplus_mod_idemp_l. f_equal. lia.
Qed.

(** The sum of a group of integers is their sum as an int64. *)
Lemma col_sum_ints (zs : list Z) :
  col_sum (VInt <$> zs) = VInt (wrap64 (foldr Z.add 0 zs)).
Proof.
  unfold col_sum. rewrite existsb_is_float_ints
    by (apply Forall_fmap, Forall_forall; intros z _; by exists z).
  assert (filter notna (VInt <$> zs) = VInt <$> zs) as ->.
  { induction zs as [|z zs IH]; [done|]. cbn [fmap list_fmap].
    rewrite filter_cons_True by done. by rewrite IH. }
  assert (∀ a, foldl num_add (VInt (wrap64 a)) (VInt <$> zs)
               = VInt (wrap64 (a + foldr Z.add 0 zs))) as Hsum; [|apply (Hsum 0)].
  induction zs as [|z zs IH]; intros a; cbn [fmap list_fmap foldl foldr].
  - by rewrite Z.add_0_r.
  - replace (num_add (VInt (wrap64 a)) (VInt z)) with (VInt (wrap64 (a + z)))
      by (unfold num_add, num_op; cbn; by rewrite wrap64_add_l).
    rewrite IH. do 2 f_equal. lia.
Qed.

Section summary.
Context `{PandasText}.

Lemma detail_summary_Ok nd s :
  detail_summary nd = Ok s ↔
  "OrderID" ∈ columns nd ∧
  s = {| columns := ["OrderID"; "DetailCount"; "TotalQuantity"; "AverageDiscount";
                     "TotalLineTotal"];
         rows := summary_row (rows nd) <$>
                   keep_first (key_of ["OrderID"]) []
                     (filter (notna_on ["OrderID"]) (rows nd)) |}.
Proof.
  unfold detail_summary, require_column. case_decide; cbn.
  - split; [by intros [= <-] | by intros [_ ->]].
  - split; [done | by intros [? _]].
Qed.

Lemma key_of_summary_row details r0 :
  key_of ["OrderID"] (summary_row details r0) = key_of ["OrderID"] r0.
Proof.
  apply key_of_ext. intros c ->%list_elem_of_singleton.
  unfold summary_row. by cell_simpl.
Qed.

Lemma summary_keys_NoDup nd s :
  detail_summary nd = Ok s → NoDup (key_of ["OrderID"] <$> rows s).
Proof.
  intros [_ ->]%detail_summary_Ok. cbn [rows]. rewrite <- list_fmap_compose.
  rewrite (list_fmap_ext _ (key_of ["OrderID"]))
    by (intros; apply key_of_summary_row).
  apply keep_first_NoDup.
Qed.

(** The rows of the summary of key [k]: none when no detail row has the
    key, one row of aggregates over the detail rows of the key otherwise. *)
Lemma summary_rows_of_key nd s k :
  detail_summary nd = Ok s →
  filter (λ sr, key_of ["OrderID"] sr = k) (rows s) =
  summary_row (rows nd) <$> option_list (head (group_of k (rows nd))).
Proof.
  intros [_ ->]%detail_summary_Ok. cbn [rows]. rewrite filter_fmap.
  rewrite (list_filter_iff _ (λ r, key_of ["OrderID"] r = k))
    by (intros r; cbv beta; by rewrite key_of_summary_row).
  by rewrite keep_first_filter_key, decide_False by by inversion 1.
Qed.


Lemma head_group_key k details r0 :
  head (group_of k details) = Some r0 → key_of ["OrderID"] r0 = k.
Proof.
  intros Hh. apply head_Some_elem_of in Hh.
  by apply list_elem_of_filter in Hh as [? _].
Qed.

End summary.

Lemma col_mean_all (l : list value) :
  l ≠ [] → Forall notna l →
  col_mean l = vfloat (b64_div (kahan_sum (as_float <$> l))
                               (b64_of_Z (Z.of_nat (length l)))).
Proof. intros Hl Hna. unfold col_mean. rewrite filter_id by done. by destruct l. Qed.

Lemma col_sum_floats (fs : list spec_float) :
  fs ≠ [] → Forall notna (VFloat <$> fs) →
  col_sum (VFloat <$> fs) = vfloat (kahan_sum fs).
Proof.
  intros Hfs Hna. unfold col_sum. rewrite filter_id by done.
  rewrite <- list_fmap_compose, list_fmap_id. by destruct fs.
Qed.

Section aggregates.
Context `{PandasText}.

(** C6.  [buildFact] makes [Discount], [Quantity] and [UnitPrice] numeric
    on every detail row, with 0.0 for a cell that is missing or that is
    not a number (a column of dates is read as nanoseconds instead), and
    sets [LineTotal = UnitPrice * Quantity * (1 - Discount)]; the summary
    has, for every order identifier with detail rows, exactly one row, and
    no row for another identifier.  In that row [DetailCount] is the number
    of detail rows (for a table of fewer than 2^63 rows), [TotalQuantity]
    is the sum of [Quantity] (the int64 sum of integers, the compensated
    sum of floats), [AverageDiscount] is the compensated sum of [Discount]
    over the number of rows, and [TotalLineTotal] is the sum of
    [LineTotal].  On the two detail rows of the scenario the summary is
    the single row 1, 2, 3, 0.05, 24.5; the quantities 0.1, 0.2 and 0.3 add
    up to 0.6. *)
Theorem detail_aggregates od nd s :
  normalize_details od = Ok nd →
  detail_summary nd = Ok s →
  Forall2 (λ r n,
      cell n "OrderID" = cell r "OrderID" ∧
      Forall (λ c,
          let col := column c od in
          let v := cell r c in
          let w := cell n c in
          let zero := VFloat (S754_zero false) in
          w = fillna zero (to_numeric col v) ∧
          isna w = false ∧
          (datetime64 col = true →
             w = VInt (match v with VTime t => epoch_nanos t | _ => INT64_MIN end)) ∧
          (datetime64 col = false →
             (isna v = true → w = zero) ∧
             (∀ t, v = VTime t → w = zero) ∧
             (∀ s, v = VStr s → parse_numeric s = None → w = zero) ∧
             (∀ f, v = VFloat f → is_nan f = false → w = VFloat f) ∧
             (∀ z, v = VInt z →
                (Forall (λ v', ∃ z', v' = VInt z') col → w = VInt z) ∧
                (∀ v', v' ∈ col → isna v' = true ∨ (∃ f, v' = VFloat f) →
                       w = VFloat (b64_of_Z z)))))
        ["Discount"; "Quantity"; "UnitPrice"] ∧
      cell n "LineTotal" =
        num_mul (num_mul (cell n "UnitPrice") (cell n "Quantity"))
                (num_sub (VInt 1) (cell n "Discount")) ∧
      cell n "DetailCount" = VInt 1)
    (rows od) (rows nd) ∧
  (∀ k,
     let g := group_of k (rows nd) in
     let of_key := filter (λ sr, key_of ["OrderID"] sr = k) (rows s) in
     (g = [] → of_key = []) ∧
     (g ≠ [] →
      ∃ sr, of_key = [sr] ∧
        (Z.of_nat (length (rows od)) < 2 ^ 63 →
         cell sr "DetailCount" = VInt (Z.of_nat (length g))) ∧
        cell sr "TotalQuantity" = col_sum (column_of "Quantity" g) ∧
        (∀ zs, column_of "Quantity" g = VInt <$> zs →
               cell sr "TotalQuantity" = VInt (wrap64 (foldr Z.add 0 zs))) ∧
        (∀ fs, column_of "Quantity" g = VFloat <$> fs →
               cell sr "TotalQuantity" = vfloat (kahan_sum fs)) ∧
        cell sr "AverageDiscount" =
          vfloat (b64_div (kahan_sum (as_float <$> column_of "Discount" g))
                          (b64_of_Z (Z.of_nat (length g)))) ∧
        cell sr "TotalLineTotal" = col_sum (column_of "LineTotal" g) ∧
        (∀ zs, column_of "LineTotal" g = VInt <$> zs →
               cell sr "TotalLineTotal" = VInt (wrap64 (foldr Z.add 0 zs))))) ∧
  cells <$> (normalize_details details_scenario ≫= detail_summary) =
    Ok [[VInt 1; VInt 2; VInt 3; VFloat (b64_lit 5 100); VFloat (b64_lit 49 2)]] ∧
  cells <$> (normalize_details details_tenths ≫= detail_summary) =
    Ok [[VInt 7; VInt 3; VFloat (b64_lit 6 10); VFloat (S754_zero false);
         VFloat (b64_lit 6 10)]].
Proof.
  intros Hnd Hs. destruct (normalize_details_Ok _ _ Hnd) as [Hrows _].
  assert (∀ k, Forall (λ n, ∃ r, n = normalize_row od r) (group_of k (rows nd))) as Hgroup.
  { intros k. apply Forall_forall. intros n Hn. unfold group_of in Hn.
    apply list_elem_of_filter in Hn as [_ Hn]. apply list_elem_of_filter in Hn as [_ Hn].
    rewrite Hrows in Hn. apply list_elem_of_fmap in Hn as (r & -> & _). by exists r. }
  split; [|split; [|split; by vm_compute]].
  { rewrite Hrows. apply Forall2_fmap_r, Forall_Forall2_diag, Forall_forall. intros r _.
    destruct (normalize_row_cells od r) as (Ho & Hd & Hq & Hu & Hl & Hc).
    split; [done|]. split; [|done].
    repeat apply Forall_cons_2; [..|apply Forall_nil_2]; cbv zeta;
      [rewrite Hd|rewrite Hq|rewrite Hu]; (split; [done|]); apply numeric_or_zero_cases. }
  intros k g of_key. unfold of_key. rewrite (summary_rows_of_key nd s k Hs).
  fold g. split; [by intros ->|]. intros Hg.
  specialize (Hgroup k). fold g in Hgroup.
  destruct g as [|r0 g'] eqn:Eg; [done|]. cbn [head option_list fmap list_fmap].
  eexists. split; [done|].
  assert (key_of ["OrderID"] r0 = k) as Hk.
  { apply (head_group_key k (rows nd)). fold g. by rewrite Eg. }
  unfold summary_row. rewrite Hk. fold g. rewrite Eg.
  assert (∀ c, c ∈ ["Discount"; "Quantity"] → Forall notna (column_of c (r0 :: g'))) as Hna.
  { intros c Hc. apply Forall_fmap. eapply Forall_impl; [exact Hgroup|].
    intros n [r ->]. cbn. unfold notna.
    destruct (normalize_row_cells od r) as (_ & Hd & Hq & _).
    rewrite !elem_of_cons in Hc. destruct Hc as [->|[->|[]%elem_of_nil]];
      [rewrite Hd|rewrite Hq]; apply numeric_or_zero_cases. }
  split; [|split; [|split; [|split; [|split; [|split]]]]]; cell_simpl.
  - intros Hlen. rewrite col_sum_ones.
    + unfold column_of. by rewrite length_fmap.
    + apply Forall_fmap. eapply Forall_impl; [exact Hgroup|].
      intros n [r ->]. cbn. apply normalize_row_cells.
    + unfold column_of. rewrite length_fmap.
      assert (length (r0 :: g') ≤ length (rows od))%nat; [|lia].
      rewrite <- Eg. unfold g, group_of.
      etrans; [apply length_filter|]. etrans; [apply length_filter|].
      by rewrite Hrows, length_fmap.
  - done.
  - intros zs ->. apply col_sum_ints.
  - intros fs Hfs. rewrite Hfs. apply col_sum_floats.
    + intros ->. done.
    + rewrite <- Hfs. apply Hna. by repeat first [apply list_elem_of_here | apply list_elem_of_further].
  - rewrite col_mean_all; [|done|apply Hna; by repeat first [apply list_elem_of_here | apply list_elem_of_further]].
    unfold column_of. by rewrite length_fmap.
  - done.
  - intros zs ->. apply col_sum_ints.
Qed.

End aggregates.

Section aggregate_examples.
#[local] Existing Instance digits_only.

(** C6, witness: the two detail rows of the scenario. *)
Lemma detail_aggregates_witness :
  cells <$> (normalize_details details_scenario ≫= detail_summary) =
    Ok [[VInt 1; VInt 2; VInt 3; VFloat (b64_lit 5 100); VFloat (b64_lit 49 2)]].
Proof.
  assert (∃ nd, normalize_details details_scenario = Ok nd) as [nd Hnd]
    by (eexists; vm_compute; reflexivity).
  assert (∃ s, detail_summary nd = Ok s) as [s Hs].
  { apply normalize_details_Ok in Hnd as [_ Hc].
    assert ("OrderID" ∈ columns nd) as Ho by (apply Hc; left; by_compute).
    eexists. apply detail_summary_Ok. split; [exact Ho | reflexivity]. }
  exact (proj1 (proj2 (proj2 (detail_aggregates details_scenario nd s Hnd Hs)))).
Defined.

(** A missing quantity and a price that is not a number count as 0.0, and
    a quantity that is the text of a number counts as that number. *)
Example missing_cells_are_zero :
  cells <$> (normalize_details details_missing ≫= detail_summary) =
    Ok [[VInt 8; VInt 2; VFloat (b64_of_Z 3); VFloat (S754_zero false);
         VFloat (S754_zero false)]].
Proof. by vm_compute. Qed.

(** C6: in a discount column that holds only dates and empty cells the
    empty cell does not become 0.0 but the least int64, and the date
    becomes its nanoseconds since 1970: the coercion reads the column as
    int64 and [fillna] finds nothing to fill. *)
Lemma dated_discount_is_not_zero :
  isna (cell (row_of ["OrderID"; "Quantity"; "UnitPrice"; "Discount"]
                [VInt 9; VInt 1; VInt 1; VNaN]) "Discount") = true ∧
  (nd ← normalize_details details_dated; Ok (column "Discount" nd))
    = Ok [VInt 836438400000000000; VInt (- 2 ^ 63)] ∧
  VInt (- 2 ^ 63) ≠ VFloat (S754_zero false).
Proof. split; [by vm_compute|]. split; [by vm_compute | done]. Qed.

End aggregate_examples.

(** ** The rows of the fact table *)

Lemma assign_result_rows c f df out :
  assign_result c f df = Ok out →
  rows out = (λ r, <[c := value_or_nan (f r)]> r) <$> rows df ∧
  ∀ c', c' ∈ columns df → c' ∈ columns out.
Proof.
  intros (rs & Hrs & ->)%assign_result_Ok. cbn. split.
  - induction Hrs as [|r r' l l' (v & Hv & ->) _ IH]; [done|].
    cbn. rewrite Hv. cbn. by rewrite IH.
  - intros c' Hc'. case_decide; [done|]. apply elem_of_app. by left.
Qed.

Lemma rename_rows old new df :
  rows (rename old new df) =
  rename_row (bool_decide (old ∈ columns df)) old new <$> rows df.
Proof.
  unfold rename, rename_row. case_bool_decide.
  - by rewrite decide_True.
  - rewrite decide_False by done. by rewrite list_fmap_id.
Qed.

Lemma rename_columns old new df c :
  c ≠ old → c ∈ columns df → c ∈ columns (rename old new df).
Proof.
  intros Hne Hc. unfold rename. case_decide; [|done]. cbn.
  apply list_elem_of_fmap. exists c. by rewrite decide_False.
Qed.

Lemma mjoin_singletons {A B} (f : A → list B) (g : A → B) (l : list A) :
  (∀ x, f x = [g x]) → mjoin (f <$> l) = g <$> l.
Proof.
  intros Hf. induction l as [|x l IH]; [done|].
  rewrite !fmap_cons. change (mjoin (f x :: (f <$> l))) with (f x ++ mjoin (f <$> l))%list.
  by rewrite Hf, IH.
Qed.

Lemma merge_left_rows on left right out :
  NoDup (key_of [on] <$> rows right) →
  merge_left on left right = Ok out →
  columns out = (columns left ++ filter (λ c, c ≠ on) (columns right))%list ∧
  rows out =
    (λ lr, join_row (filter (λ c, c ≠ on) (columns right)) lr
             (head (filter (λ rr, key_of [on] rr = key_of [on] lr) (rows right))))
      <$> rows left.
Proof.
  intros Hnd. unfold merge_left.
  intros ([] & _ & Hm)%bind_Ok. apply bind_Ok in Hm as ([] & _ & Hm).
  destruct (filter _ (columns right)) as [|c l]; [|done].
  injection Hm as <-. cbn [rows columns]. split; [done|].
  apply mjoin_singletons. intros lr.
  rewrite (NoDup_fmap_filter_key (key_of [on]) (key_of [on] lr) (rows right) Hnd).
  by destruct (head _).
Qed.

Section fact_rows.
Context `{PandasText}.

Lemma key_column_Ok c twice e df :
  key_column c twice e df = Ok () → twice = false ∧ c ∈ columns df.
Proof.
  unfold key_column. destruct twice; [done|]. by intros ?%require_column_Ok.
Qed.

Lemma matched_delete_source summary (r : gmap string value) :
  head (filter (λ rr, key_of ["OrderID"] rr = key_of ["OrderID"] (delete "_source" r))
          (rows summary)) = matched summary r.
Proof.
  unfold matched. f_equal. apply list_filter_iff. intros rr.
  rewrite key_of_delete_source; [done|]. by intros ?%list_elem_of_singleton.
Qed.

(** The rows of the fact table are the order rows, in order, each joined
    to its row of the summary and taken through the column assignments. *)
Lemma build_fact_sales_rows orders summary fact :
  NoDup (key_of ["OrderID"] <$> rows summary) →
  columns summary = "OrderID" :: summary_columns →
  build_fact_sales orders summary = Ok fact →
  ∃ freight employees shippers b_c b_e b_s,
    ("CustomerID" ∈ columns orders → b_c = true) ∧
    rows fact = (λ r, fact_row freight employees shippers b_c b_e b_s (joined summary r))
                  <$> rows orders.
Proof.
  intros Hnd Hcols Hb. unfold build_fact_sales in Hb.
  apply bind_Ok in Hb as (f0 & H0 & Hb).
  assert ("OrderID" ∈ columns (drop_column "_source" orders)) as Hoid.
  { unfold merge_left in H0. apply bind_Ok in H0 as ([] & Hr & _).
    by apply require_column_Ok in Hr. }
  apply merge_left_rows in H0 as [Hc0 Hr0]; [|done].
  rewrite Hcols in Hr0, Hc0.
  change (filter (λ c, c ≠ "OrderID") ("OrderID" :: summary_columns))
    with summary_columns in Hr0, Hc0.
  cbn [rows drop_column] in Hr0. rewrite <- list_fmap_compose in Hr0.
  apply bind_Ok in Hb as ([] & _ & Hb). cbv beta zeta in Hb.
  apply bind_Ok in Hb as (f2 & H2 & Hb). apply assign_result_rows in H2 as [Hr2 Hc2].
  apply bind_Ok in Hb as (f3 & H3 & Hb). apply assign_result_rows in H3 as [Hr3 Hc3].
  apply bind_Ok in Hb as ([] & _ & Hb). cbv beta zeta in Hb.
  apply bind_Ok in Hb as ([] & [_ _]%key_column_Ok & Hb).
  apply bind_Ok in Hb as ([] & [_ _]%key_column_Ok & Hb).
  apply bind_Ok in Hb as (f10 & H10 & Hb). apply assign_result_rows in H10 as [Hr10 _].
  apply bind_Ok in Hb as ([] & [_ _]%key_column_Ok & Hb).
  apply assign_result_rows in Hb as [Hr11 _].
  set (f7 := assign "Freight" _ _) in *.
  assert (∀ c, c ∈ columns orders → c ≠ "_source" → c ∈ columns f7) as Hcols7.
  { intros c Hc Hne. unfold f7. rewrite !columns_assign. do 4 left.
    apply Hc3, Hc2. rewrite columns_assign. left. rewrite Hc0.
    apply elem_of_app. left. cbn. by apply list_elem_of_filter. }
  assert ("OrderID" ∈ columns f7) as Hoid7.
  { unfold f7. rewrite !columns_assign. do 4 left.
    apply Hc3, Hc2. rewrite columns_assign. left. rewrite Hc0.
    apply elem_of_app. by left. }
  eexists _, _, _, _, _, _. split; last first.
  - rewrite Hr11, Hr10. cbn [rows assign]. rewrite !rename_rows.
    unfold f7. cbn [rows assign]. rewrite Hr3, Hr2. cbn [rows assign]. rewrite Hr0.
    rewrite <- !list_fmap_compose. apply list_fmap_ext. intros i r _.
    cbn [compose]. rewrite matched_delete_source.
    fold f7. rewrite (bool_decide_eq_true_2 _ Hoid7). reflexivity.
  - intros Hc. apply bool_decide_eq_true_2. apply rename_columns; [done|].
    by apply Hcols7.
Qed.

End fact_rows.

Lemma cell_join_row extra (lr : gmap string value) rr c :
  cell (join_row extra lr rr) c =
  if decide (c ∈ extra) then from_option (λ r, cell r c) VNaN rr else cell lr c.
Proof.
  unfold join_row. induction extra as [|c' extra IH]; cbn.
  { by rewrite decide_False by by inversion 1. }
  destruct (decide (c' = c)) as [->|Hne].
  - rewrite cell_insert_eq. by rewrite decide_True by left.
  - rewrite cell_insert_ne by done. rewrite IH.
    destruct (decide (c ∈ extra)).
    + by rewrite decide_True by by right.
    + rewrite decide_False; [done|]. by intros [->|?]%elem_of_cons.
Qed.

Ltac in_list := by repeat first [apply list_elem_of_here | apply list_elem_of_further].
Ltac not_in_list := by_compute.

Section fact_cells.
Context `{PandasText}.


Lemma cell_joined_other summary r c :
  c ∉ summary_columns → c ≠ "_source" →
  cell (joined summary r) c = cell r c.
Proof.
  intros Hc Hs. unfold joined. rewrite cell_join_row, decide_False by done.
  by rewrite cell_delete_ne.
Qed.

(** A date cell after [to_datetime] and the default date is a timestamp. *)
Lemma clean_date v : ∃ t, fillna (VTime DEFAULT_DATE) (to_datetime v) = VTime t.
Proof.
  unfold to_datetime. destruct (isna v) eqn:E; [by exists DEFAULT_DATE|].
  assert (∀ o, ∃ t, fillna (VTime DEFAULT_DATE) (from_option VTime VNaN o) = VTime t) as Ho.
  { intros [t|]; [by exists t | by exists DEFAULT_DATE]. }
  destruct v as [| |b|z|f|s|t]; try apply Ho. by exists t.
Qed.

Lemma to_datetime_time t : to_datetime (VTime t) = VTime t.
Proof. done. Qed.

Lemma fact_dates_cells j c :
  (∃ t, fillna (VTime DEFAULT_DATE) (to_datetime (cell j "OrderDate")) = VTime t ∧
        cell (fact_dates j) "TimeKey" = VInt (time_key t)) ∧
  (c ≠ "OrderDate" → c ≠ "TimeKey" → cell (fact_dates j) c = cell j c).
Proof.
  unfold fact_dates. destruct (clean_date (cell j "OrderDate")) as [t Ht]. split.
  - exists t. split; [done|]. cell_simpl. by rewrite Ht.
  - intros. by cell_simpl.
Qed.

Lemma fact_measures_cells freight r c :
  let zero := VFloat (S754_zero false) in
  cell (fact_measures freight r) "DetailCount" =
    value_or_nan (VInt <$> astype_int (fillna (VInt 0) (cell r "DetailCount"))) ∧
  cell (fact_measures freight r) "TotalQuantity" = fillna zero (cell r "TotalQuantity") ∧
  cell (fact_measures freight r) "AverageDiscount" = fillna zero (cell r "AverageDiscount") ∧
  cell (fact_measures freight r) "TotalLineTotal" = fillna zero (cell r "TotalLineTotal") ∧
  (c ∉ ["DetailCount"; "TotalQuantity"; "AverageDiscount"; "TotalLineTotal"; "Freight"] →
   cell (fact_measures freight r) c = cell r c).
Proof.
  unfold fact_measures. repeat split; try by cell_simpl.
  rewrite !not_elem_of_cons. intros (? & ? & ? & ? & ? & _). by cell_simpl.
Qed.

Lemma fact_renames_cells b_c b_e b_s r c :
  cell (fact_renames b_c b_e b_s r) "OrderKey" = cell r "OrderID" ∧
  cell (fact_renames b_c b_e b_s r) "CustomerKey" =
    cell r (if b_c then "CustomerID" else "CustomerKey") ∧
  (c ∉ ["OrderID"; "OrderKey"; "CustomerID"; "CustomerKey"; "EmployeeID"; "EmployeeKey";
        "ShipVia"; "ShipperKey"] →
   cell (fact_renames b_c b_e b_s r) c = cell r c).
Proof.
  unfold fact_renames, rename_row. repeat split.
  - destruct b_c, b_e, b_s; by cell_simpl.
  - destruct b_c, b_e, b_s; by cell_simpl.
  - rewrite !not_elem_of_cons. intros (? & ? & ? & ? & ? & ? & ? & ? & _).
    destruct b_c, b_e, b_s; by cell_simpl.
Qed.

Lemma fact_keys_cells employees shippers r c :
  cell (fact_keys employees shippers r) "CustomerKey" = VStr (strip (astype_str (cell r "CustomerKey"))) ∧
  (c ∉ ["CustomerKey"; "EmployeeKey"; "ShipperKey"] → cell (fact_keys employees shippers r) c = cell r c).
Proof.
  unfold fact_keys. split; [by cell_simpl|].
  rewrite !not_elem_of_cons. intros (? & ? & ? & _). by cell_simpl.
Qed.

(** The cells of a fact row that the properties below are about. *)
Lemma fact_row_cells freight employees shippers b_c b_e b_s j :
  let fr := fact_row freight employees shippers b_c b_e b_s j in
  let zero := VFloat (S754_zero false) in
  cell fr "OrderKey" = cell j "OrderID" ∧
  (∃ t, fillna (VTime DEFAULT_DATE) (to_datetime (cell j "OrderDate")) = VTime t ∧
        cell fr "TimeKey" = VInt (time_key t)) ∧
  cell fr "DetailCount" =
    value_or_nan (VInt <$> astype_int (fillna (VInt 0) (cell j "DetailCount"))) ∧
  cell fr "TotalQuantity" = fillna zero (cell j "TotalQuantity") ∧
  cell fr "AverageDiscount" = fillna zero (cell j "AverageDiscount") ∧
  cell fr "TotalLineTotal" = fillna zero (cell j "TotalLineTotal") ∧
  cell fr "CustomerKey" =
    VStr (strip (astype_str (cell j (if b_c then "CustomerID" else "CustomerKey")))).
Proof.
  intros fr zero. unfold fr, fact_row.
  set (d := fact_dates j). set (m := fact_measures freight d).
  set (n := fact_renames b_c b_e b_s m).
  assert (∀ c, c ∉ ["CustomerKey"; "EmployeeKey"; "ShipperKey"] →
               c ∉ ["OrderID"; "OrderKey"; "CustomerID"; "CustomerKey"; "EmployeeID";
                    "EmployeeKey"; "ShipVia"; "ShipperKey"] →
               cell (fact_keys employees shippers n) c = cell m c) as Hkn.
  { intros c H1 H2. rewrite (proj2 (fact_keys_cells employees shippers n c)) by done.
    by apply fact_renames_cells. }
  assert (∀ c, c ∉ ["DetailCount"; "TotalQuantity"; "AverageDiscount"; "TotalLineTotal";
                    "Freight"; "OrderDate"; "TimeKey"] → cell m c = cell j c) as Hmd.
  { intros c Hc. rewrite !not_elem_of_cons in Hc. destruct Hc as (?&?&?&?&?&?&?&_).
    unfold m. rewrite (proj2 (proj2 (proj2 (proj2 (fact_measures_cells freight d c)))))
      by (rewrite !not_elem_of_cons; repeat split; first [done | apply not_elem_of_nil]).
    by apply fact_dates_cells. }
  destruct (fact_measures_cells freight d "OrderID") as (Hdc & Htq & Had & Htl & Hoth).
  destruct (fact_dates_cells j "DetailCount") as [(t & Ht & Htk) Hd].
  repeat split.
  - rewrite (proj2 (fact_keys_cells employees shippers n "OrderKey")) by not_in_list.
    unfold n. rewrite (proj1 (fact_renames_cells _ _ _ m "OrderKey")).
    apply Hmd. not_in_list.
  - exists t. split; [done|]. rewrite Hkn by not_in_list. unfold m.
    rewrite (proj2 (proj2 (proj2 (proj2 (fact_measures_cells freight d "TimeKey")))))
      by not_in_list. done.
  - rewrite Hkn by not_in_list. fold m in Hdc. rewrite Hdc. unfold d.
    by rewrite (proj2 (fact_dates_cells j "DetailCount")).
  - rewrite Hkn by not_in_list. fold m in Htq. rewrite Htq. unfold d.
    by rewrite (proj2 (fact_dates_cells j "TotalQuantity")).
  - rewrite Hkn by not_in_list. fold m in Had. rewrite Had. unfold d.
    by rewrite (proj2 (fact_dates_cells j "AverageDiscount")).
  - rewrite Hkn by not_in_list. fold m in Htl. rewrite Htl. unfold d.
    by rewrite (proj2 (fact_dates_cells j "TotalLineTotal")).
  - rewrite (proj1 (fact_keys_cells employees shippers n "CustomerKey")). do 3 f_equal. unfold n.
    rewrite (proj1 (proj2 (fact_renames_cells b_c b_e b_s m "CustomerKey"))).
    apply Hmd. destruct b_c; not_in_list.
Qed.

End fact_cells.

(** ** The pipeline, step by step *)

Section pipeline.
Context `{PandasText}.

Lemma to_datetime_cases v : to_datetime v = VNaN ∨ ∃ t, to_datetime v = VTime t.
Proof.
  unfold to_datetime. destruct (isna v); [by left|].
  destruct v as [| |b|z|f|s|t]; eauto;
    (destruct (parse_datetime _); cbn; eauto).
Qed.

Lemma clean_dates_Ok orders orders' :
  clean_dates orders = Ok orders' ↔
  "OrderDate" ∈ columns orders ∧
  orders' = {| columns := columns orders; rows := clean_row <$> rows orders |}.
Proof.
  unfold clean_dates, require_column.
  destruct (decide ("OrderDate" ∈ columns orders)) as [Hc|Hc]; cbn [mbind result_bind];
    [|split; [done | by intros [? _]]].
  set (parsed := assign "OrderDate" _ orders).
  assert (columns parsed = columns orders) as Hcols.
  { unfold parsed, assign. cbn. by rewrite decide_True. }
  assert ((if decide (0 < length (filter (λ r, isna (cell r "OrderDate") = true)
                                     (rows parsed)))%nat
           then assign "OrderDate"
                  (λ r, fillna (VTime DEFAULT_DATE) (cell r "OrderDate")) parsed
           else parsed)
          = {| columns := columns orders; rows := clean_row <$> rows orders |}) as ->;
    [|split; [by intros [= <-] | by intros [_ ->]]].
  case_decide as Hm.
  - unfold assign at 1. cbn [columns rows]. rewrite Hcols, decide_True by done.
    f_equal. unfold parsed. cbn [rows assign]. rewrite <- list_fmap_compose.
    apply list_fmap_ext. intros i r _. cbn. unfold clean_row.
    by rewrite cell_insert_eq, insert_insert_eq.
  - destruct parsed as [cs rs] eqn:Ep. cbn in Hcols. subst cs. f_equal.
    assert (rs = (λ r, <["OrderDate" := to_datetime (cell r "OrderDate")]> r)
                   <$> rows orders) as Hrs.
    { change rs with (rows {| columns := columns orders; rows := rs |}).
      by rewrite <- Ep. }
    cbn [rows] in Hm. rewrite Hrs in Hm |- *. apply list_fmap_ext. intros i r Hi.
    unfold clean_row. f_equal.
    destruct (to_datetime_cases (cell r "OrderDate")) as [E|[t E]]; rewrite E; [|done].
    exfalso. apply Hm. rewrite filter_fmap.
    assert (r ∈ filter (λ r, isna (cell (<["OrderDate" := to_datetime (cell r "OrderDate")]> r)
                                    "OrderDate") = true) (rows orders)) as Hin.
    { apply list_elem_of_filter. split; [|by eapply list_elem_of_lookup_2].
      by rewrite cell_insert_eq, E. }
    rewrite length_fmap. destruct (filter _ (rows orders)); [by inversion Hin|cbn; lia].
Qed.

(** What a successful run has computed. *)
Lemma build_star_schema_Ok src star :
  build_star_schema src = Ok star →
  ∃ orders0 od0 customers products employees shippers categories orders nd s,
    merge_sources src "Orders" ["OrderID"] false = Ok (Some orders0) ∧
    merge_sources src "Order Details" ["OrderID"; "ProductID"] false = Ok (Some od0) ∧
    merge_sources src "Customers" ["CustomerID"] true = Ok customers ∧
    merge_sources src "Products" ["ProductID"] true = Ok products ∧
    merge_sources src "Employees" ["EmployeeID"] true = Ok employees ∧
    merge_sources src "Shippers" ["ShipperID"] true = Ok shippers ∧
    merge_sources src "Categories" ["CategoryID"] true = Ok categories ∧
    clean_dates orders0 = Ok orders ∧
    build_dim_time orders = Ok (dim_time star) ∧
    build_dim_customer customers = Ok (dim_customer star) ∧
    build_dim_employee employees = Ok (dim_employee star) ∧
    build_dim_shipper shippers = Ok (dim_shipper star) ∧
    build_dim_categories categories = Ok (dim_categories star) ∧
    build_dim_product products (dim_categories star) = Ok (dim_product star) ∧
    normalize_details od0 = Ok nd ∧
    detail_summary nd = Ok s ∧
    build_fact_sales orders s = Ok (fact_sales star).
Proof.
  unfold build_star_schema. intros Hb.
  apply bind_Ok in Hb as (orders0 & Ho & Hb).
  apply bind_Ok in Hb as (od0 & Hd & Hb).
  apply bind_Ok in Hb as (customers & Hcu & Hb).
  apply bind_Ok in Hb as (products & Hp & Hb).
  apply bind_Ok in Hb as (employees & He & Hb).
  apply bind_Ok in Hb as (shippers & Hsh & Hb).
  apply bind_Ok in Hb as (categories & Hca & Hb).
  apply bind_Ok in Hb as (n1 & Hn1 & Hb).
  apply bind_Ok in Hb as (n2 & Hn2 & Hb).
  destruct orders0 as [orders0|]; [|done]. destruct od0 as [od0|]; [|done].
  cbn [subscript mbind result_bind] in Hb.
  apply bind_Ok in Hb as (orders & Hcl & Hb).
  apply bind_Ok in Hb as (dt & Hdt & Hb).
  apply bind_Ok in Hb as (dc & Hdc & Hb).
  apply bind_Ok in Hb as (de & Hde & Hb).
  apply bind_Ok in Hb as (dsh & Hdsh & Hb).
  apply bind_Ok in Hb as (dca & Hdca & Hb).
  apply bind_Ok in Hb as (dp & Hdp & Hb).
  apply bind_Ok in Hb as (nd & Hnd & Hb).
  apply bind_Ok in Hb as (s & Hs & Hb).
  apply bind_Ok in Hb as (fs & Hfs & Hb).
  injection Hb as <-. cbn [dim_time dim_customer dim_product dim_employee dim_shipper
                           dim_categories fact_sales].
  by exists orders0, od0, customers, products, employees, shippers, categories, orders, nd, s.
Qed.

End pipeline.

(** ** Orders without detail rows *)

Section measures.
Context `{PandasText}.





End measures.

(** ** The time dimension *)

Lemma keep_first_covers {A K} `{EqDecision K} (f : A → K) (l : list A) (x : A) :
  x ∈ l → ∃ y, y ∈ keep_first f [] l ∧ y ∈ l ∧ f y = f x.
Proof.
  intros Hx.
  pose proof (keep_first_filter_key f (f x) [] l) as Hk.
  rewrite decide_False in Hk by by inversion 1.
  destruct (filter (λ y, f y = f x) l) as [|y l'] eqn:E.
  { assert (x ∈ filter (λ y, f y = f x) l) as Hin by by apply list_elem_of_filter.
    rewrite E in Hin. by inversion Hin. }
  cbn in Hk. assert (y ∈ filter (λ y, f y = f x) (keep_first f [] l)) as Hy
    by (rewrite Hk; left).
  apply list_elem_of_filter in Hy as [Hfy Hy]. exists y. split; [done|]. split; [|done].
  by apply keep_first_elem in Hy as [? _].
Qed.

Section time_dimension.
Context `{PandasText}.

Lemma dim_time_row_Ok r tr :
  dim_time_row r = Ok tr →
  ∃ t, cell r "OrderDate" = VTime t ∧ cell tr "TimeKey" = VInt (time_key t) ∧
       cell tr "date" = VTime t.
Proof.
  unfold dim_time_row. intros (k & Hk & [= <-])%bind_Ok.
  destruct (cell r "OrderDate") as [| |b|z|f|s|t]; try done.
  injection Hk as <-. exists t. split; [done|]. by cell_simpl.
Qed.

Lemma build_dim_time_Ok orders dt :
  build_dim_time orders = Ok dt →
  ∃ rs, Forall2 (λ r tr, dim_time_row r = Ok tr) (rows orders) rs ∧
        rows dt = keep_first (key_of ["TimeKey"; "date"; "year"; "month"; "day"]) [] rs.
Proof.
  unfold build_dim_time. intros (rs & Hrs & [= <-])%bind_Ok.
  exists rs. split; [by apply mapM_Ok | done].
Qed.

(** The time key of every cleaned order row is a key of the time
    dimension. *)
Lemma time_key_in_dimension orders dt r t :
  build_dim_time orders = Ok dt → r ∈ rows orders → cell r "OrderDate" = VTime t →
  ∃ tr, tr ∈ rows dt ∧ cell tr "TimeKey" = VInt (time_key t).
Proof.
  intros (rs & Hrs & Hdt)%build_dim_time_Ok Hr Ht.
  apply list_elem_of_lookup in Hr as [i Hi].
  destruct (Forall2_lookup_l _ _ _ _ _ Hrs Hi) as (tr0 & Hi0 & Htr0).
  apply dim_time_row_Ok in Htr0 as (t0 & Ht0 & Hk0 & _).
  rewrite Ht in Ht0. injection Ht0 as <-.
  destruct (keep_first_covers (key_of ["TimeKey"; "date"; "year"; "month"; "day"]) rs tr0)
    as (tr & Hin & Hrs' & Hkey); [by eapply list_elem_of_lookup_2|].
  exists tr. split; [by rewrite Hdt|].
  apply list_elem_of_lookup in Hrs' as [i' Hi'].
  destruct (Forall2_lookup_r _ _ _ _ _ Hrs Hi') as (r' & _ & Htr).
  apply dim_time_row_Ok in Htr as (t' & _ & Hk' & _).
  unfold key_of in Hkey. cbn in Hkey. injection Hkey as Hkey _.
  rewrite Hk0, Hk' in Hkey. cbn in Hkey. by rewrite Hk', Hkey.
Qed.

(** C1 (as amended).  In a run that produces its tables every fact row has
    a [TimeKey], the day of its order date as the integer YYYYMMDD, and the
    Time dimension has a row with that [TimeKey]. *)
Theorem time_keys_resolve src star fr :
  build_star_schema src = Ok star →
  fr ∈ rows (fact_sales star) →
  ∃ t tr, cell fr "TimeKey" = VInt (time_key t) ∧
          tr ∈ rows (dim_time star) ∧
          cell tr "TimeKey" = cell fr "TimeKey".
Proof.
  intros Hb Hfr. apply build_star_schema_Ok in Hb
    as (orders0 & od0 & cu & pr & em & sh & ca & orders & nd & s & _ & _ & _ & _ & _ &
        _ & _ & Hcl & Hdt & _ & _ & _ & _ & _ & Hnd & Hs & Hf).
  apply build_fact_sales_rows in Hf as (freight & employees & shippers & b_c & b_e & b_s & _ & Hrows);
    [|by eapply summary_keys_NoDup | by apply detail_summary_Ok in Hs as [_ ->]].
  rewrite Hrows in Hfr. apply list_elem_of_fmap in Hfr as (r & -> & Hr).
  destruct (fact_row_cells freight employees shippers b_c b_e b_s (joined s r)) as (_ & (t & Ht & Hk) & _).
  rewrite cell_joined_other in Ht by first [not_in_list | done].
  assert (cell r "OrderDate" = VTime t) as Hdate.
  { apply clean_dates_Ok in Hcl as [_ ->]. cbn in Hr.
    apply list_elem_of_fmap in Hr as (r0 & -> & _). unfold clean_row in *.
    rewrite cell_insert_eq in *.
    destruct (clean_date (cell r0 "OrderDate")) as [t0 Ht0]. rewrite Ht0 in *.
    by rewrite to_datetime_time in Ht. }
  destruct (time_key_in_dimension orders (dim_time star) r t Hdt Hr Hdate) as (tr & ? & ?).
  exists t, tr. split; [done|]. split; [done|]. congruence.
Qed.

End time_dimension.

Lemma is_ok_Ok {A} (m : result A) : is_ok m = true → ∃ a, m = Ok a.
Proof. destruct m as [a|e]; [by exists a | done]. Qed.

Lemma columns_of_run_Ok `{PandasText} src sel cols :
  columns_of_run src sel = Ok cols →
  ∃ star, build_star_schema src = Ok star ∧
          cols = (λ tc, column tc.2 (tc.1 star)) <$> sel.
Proof. unfold columns_of_run. intros (star & ? & [= <-])%bind_Ok. by exists star. Qed.

Section pipeline_examples.
#[local] Existing Instance digits_only.

Lemma northwind_runs : ∃ star, build_star_schema northwind = Ok star.
Proof. apply is_ok_Ok. vm_compute. reflexivity. Defined.

(** C1, witness: the run on the small database. *)
Lemma time_keys_resolve_witness :
  ∃ star,
    build_star_schema northwind = Ok star ∧
    ∀ fr, fr ∈ rows (fact_sales star) →
      ∃ t tr, cell fr "TimeKey" = VInt (time_key t) ∧ tr ∈ rows (dim_time star) ∧
              cell tr "TimeKey" = cell fr "TimeKey".
Proof.
  destruct northwind_runs as [star Hrun]. exists star. split; [done|].
  intros fr Hin. exact (time_keys_resolve northwind star fr Hrun Hin).
Defined.

(** C1, counterexample: order 10249 is of customer ZZZZZ, employee 6 and
    shipper 1, none of which is in its dimension; the fact row carries the
    three keys all the same. *)
Lemma orphan_foreign_keys :
  columns_of_run northwind
    [(fact_sales, "OrderKey");
     (fact_sales, "CustomerKey"); (dim_customer, "CustomerKey");
     (fact_sales, "EmployeeKey"); (dim_employee, "EmployeeKey");
     (fact_sales, "ShipperKey"); (dim_shipper, "ShipperKey")]
  = Ok [[VInt 10248; VInt 10249];
        [VStr "VINET"; VStr "ZZZZZ"]; [VStr "VINET"];
        [VInt 5; VInt 6]; [VInt 5];
        [VInt 3; VInt 1]; [VInt 3]].
Proof. vm_compute. reflexivity. Qed.


Example northwind_measures :
  columns_of_run northwind
    [(fact_sales, "OrderKey"); (fact_sales, "DetailCount"); (fact_sales, "TotalQuantity");
     (fact_sales, "AverageDiscount"); (fact_sales, "TotalLineTotal")]
  = Ok [[VInt 10248; VInt 10249];
        [VInt 2; VInt 0];
        [VInt 22; VFloat (S754_zero false)];
        [VFloat (S754_zero false); VFloat (S754_zero false)];
        [VFloat (b64_lit 266 1); VFloat (S754_zero false)]].
Proof. vm_compute. reflexivity. Qed.

(** C2, the failing input: two orders of 4 July 1996, at midnight and at
    noon.  The time dimension has two rows with the key 19960704. *)
Lemma time_key_repeated :
  columns_of_run (northwind_with nw_orders_same_day nw_customers)
    [(dim_time, "TimeKey"); (dim_time, "date")]
  = Ok [[VInt 19960704; VInt 19960704]; [july_4 0; july_4 noon]] ∧
  ¬ NoDup [VInt 19960704; VInt 19960704].
Proof.
  split; [vm_compute; reflexivity|].
  intros [Hn _]%NoDup_cons. apply Hn. left.
Qed.

End pipeline_examples.

(** ** The keys of the dimensions *)

Lemma drop_duplicates_Ok subset df out :
  subset ≠ [] → columns df ≠ [] →
  drop_duplicates subset df = Ok out →
  rows out = keep_first (key_of subset) [] (rows df).
Proof.
  intros Hs Hc. unfold drop_duplicates, empty. case_bool_decide as He.
  - destruct He as [|He]; [done|]. intros [= <-]. by rewrite He.
  - intros ([] & _ & Ho)%bind_Ok. destruct subset; [done|]. by injection Ho as <-.
Qed.

Lemma dropna_Ok subset df out :
  dropna subset df = Ok out →
  rows out = filter (notna_on subset) (rows df) ∧ columns out = columns df ∧
  Forall (λ c, c ∈ columns df) subset.
Proof.
  unfold dropna. intros ([] & Hr & [= <-])%bind_Ok. by apply require_columns_Ok in Hr.
Qed.

Lemma dropna_dedup_keys k df out :
  (d ← dropna [k] df; drop_duplicates [k] d) = Ok out → key_column_ok k out.
Proof.
  intros (d & Hd & Ho)%bind_Ok. apply dropna_Ok in Hd as (Hd & Hcols & Hk).
  apply drop_duplicates_Ok in Ho; [|done|].
  2:{ rewrite Hcols. apply Forall_cons in Hk as [Hk _]. intros E. rewrite E in Hk.
      by inversion Hk. }
  unfold key_column_ok. rewrite Ho, Hd. split; [|apply keep_first_NoDup].
  apply Forall_forall. intros r [Hr _]%keep_first_elem.
  by apply list_elem_of_filter in Hr as [? _].
Qed.

Section dimension_keys.
Context `{PandasText}.

Lemma dim_customer_keys customers dim :
  build_dim_customer customers = Ok dim → key_column_ok "CustomerKey" dim.
Proof.
  unfold build_dim_customer. intros (c & _ & Hb)%bind_Ok.
  apply bind_Ok in Hb as (df & _ & Hb). by apply dropna_dedup_keys in Hb.
Qed.

Lemma dim_employee_keys employees dim :
  build_dim_employee employees = Ok dim → key_column_ok "EmployeeKey" dim.
Proof.
  unfold build_dim_employee. intros (e & _ & Hb)%bind_Ok.
  apply bind_Ok in Hb as ([] & _ & Hb). apply bind_Ok in Hb as ([] & _ & Hb).
  apply bind_Ok in Hb as (e' & _ & Hb). apply bind_Ok in Hb as (df & _ & Hb).
  by apply dropna_dedup_keys in Hb.
Qed.

Lemma dim_shipper_keys shippers dim :
  build_dim_shipper shippers = Ok dim → key_column_ok "ShipperKey" dim.
Proof.
  unfold build_dim_shipper. intros (e & _ & Hb)%bind_Ok.
  apply bind_Ok in Hb as (df & _ & Hb). apply bind_Ok in Hb as (df' & _ & Hb).
  by apply dropna_dedup_keys in Hb.
Qed.

Lemma dim_product_keys products dim_categories dim :
  build_dim_product products dim_categories = Ok dim → key_column_ok "ProductKey" dim.
Proof.
  unfold build_dim_product. intros (p & _ & Hb)%bind_Ok.
  apply bind_Ok in Hb as ([] & _ & Hb). cbv zeta in Hb.
  apply bind_Ok in Hb as (p1 & _ & Hb). apply bind_Ok in Hb as (p2 & _ & Hb).
  apply bind_Ok in Hb as (rs & Hrs & Hb).
  do 4 apply bind_Ok in Hb as ([] & _ & Hb).
  apply drop_duplicates_Ok in Hb; [|done..]. cbn [rows] in Hb. unfold key_column_ok.
  split; [|rewrite Hb; apply keep_first_NoDup].
  rewrite Hb. apply Forall_forall. intros r [Hr _]%keep_first_elem.
  apply mapM_Ok in Hrs. apply list_elem_of_lookup in Hr as [i Hi].
  destruct (Forall2_lookup_r _ _ _ _ _ Hrs Hi) as (r0 & _ & Hr0).
  unfold dim_product_row in Hr0. apply bind_Ok in Hr0 as (k & _ & [= <-]).
  unfold notna_on. rewrite Forall_singleton. by cell_simpl.
Qed.

(** Every dimension but Time has a key column without missing or repeated
    keys, and the keys of Time are never missing. *)
Lemma dimension_keys src star :
  build_star_schema src = Ok star →
  key_column_ok "CustomerKey" (dim_customer star) ∧
  key_column_ok "ProductKey" (dim_product star) ∧
  key_column_ok "EmployeeKey" (dim_employee star) ∧
  key_column_ok "ShipperKey" (dim_shipper star) ∧
  Forall (λ tr, ∃ t, cell tr "TimeKey" = VInt (time_key t)) (rows (dim_time star)).
Proof.
  intros Hb. apply build_star_schema_Ok in Hb
    as (orders0 & od0 & cu & pr & em & sh & ca & orders & nd & s & _ & _ & _ & _ & _ &
        _ & _ & _ & Hdt & Hdc & Hde & Hdsh & _ & Hdp & _).
  split; [by eapply dim_customer_keys|]. split; [by eapply dim_product_keys|].
  split; [by eapply dim_employee_keys|]. split; [by eapply dim_shipper_keys|].
  apply build_dim_time_Ok in Hdt as (rs & Hrs & ->).
  apply Forall_forall. intros tr [Htr _]%keep_first_elem.
  apply list_elem_of_lookup in Htr as [i Hi].
  destruct (Forall2_lookup_r _ _ _ _ _ Hrs Hi) as (r0 & _ & Hr0).
  apply dim_time_row_Ok in Hr0 as (t & _ & ? & _). by exists t.
Qed.

End dimension_keys.

(** ** Absent tables *)

Section absent.
Context `{PandasText}.

Lemma reconcile_absent src t key dedupe :
  load_excel src t = None → load_sql src t = None →
  merge_sources src t key dedupe = Ok None ∧
  merge_with_excel src None t key dedupe = Ok None.
Proof.
  intros Hx Hs. rewrite merge_sources_unfold, merge_with_excel_unfold, Hx, Hs. done.
Qed.

(** C9 (as amended).  When both origins of a table are absent the
    reconcilers return an absent result, and when the table is one of the
    seven of the pipeline the run does not produce its tables: it stops on
    an exception. *)
Theorem absent_table_aborts src t :
  load_excel src t = None → load_sql src t = None →
  (∀ key dedupe,
     merge_sources src t key dedupe = Ok None ∧
     merge_with_excel src None t key dedupe = Ok None) ∧
  (t ∈ tables → ∃ e, build_star_schema src = Raise e).
Proof.
  intros Hx Hs.
  assert (∀ key dedupe, merge_sources src t key dedupe = Ok None) as Hnone.
  { intros. by apply reconcile_absent. }
  split; [intros; by apply reconcile_absent|].
  intros Ht. destruct (build_star_schema src) as [star|e] eqn:Hb; [exfalso|by exists e].
  apply build_star_schema_Ok in Hb
    as (orders0 & od0 & cu & pr & em & sh & ca & orders & nd & s & Ho & Hd & Hcu & Hpr &
        Hem & Hsh & Hca & _ & _ & Hdc & Hde & Hdsh & Hdca & Hdp & _).
  unfold tables in Ht. rewrite !elem_of_cons in Ht.
  destruct Ht as [->|[->|[->|[->|[->|[->|[->|Ht]]]]]]].
  - by rewrite Hnone in Ho.
  - by rewrite Hnone in Hd.
  - rewrite Hnone in Hcu. by injection Hcu as <-.
  - rewrite Hnone in Hpr. by injection Hpr as <-.
  - rewrite Hnone in Hem. by injection Hem as <-.
  - rewrite Hnone in Hsh. by injection Hsh as <-.
  - rewrite Hnone in Hca. by injection Hca as <-.
  - by inversion Ht.
Qed.


End absent.

Section absent_examples.
#[local] Existing Instance digits_only.

(** C9, witness: no source at all, the table of customers. *)
Lemma absent_table_aborts_witness :
  merge_sources no_sources "Customers" ["CustomerID"] true = Ok None ∧
  ∃ e, build_star_schema no_sources = Raise e.
Proof.
  destruct (absent_table_aborts no_sources "Customers" eq_refl eq_refl) as [Hm Hb].
  split; [apply Hm|]. apply Hb. unfold tables. in_list.
Defined.

(** C9, counterexample: the exception is the [TypeError] Python raises on
    [None], and its message names no table. *)
Lemma absent_table_error_is_unnamed :
  build_star_schema no_sources
    = Raise (TypeError "object of type 'NoneType' has no len()") ∧
  Forall (λ t, ¬ names_table (TypeError "object of type 'NoneType' has no len()") t)
    tables ∧
  load_excel (without "Customers" northwind) "Customers" = None ∧
  load_sql (without "Customers" northwind) "Customers" = None ∧
  build_star_schema (without "Customers" northwind)
    = Raise (TypeError "'NoneType' object is not subscriptable") ∧
  ¬ names_table (TypeError "'NoneType' object is not subscriptable") "Customers".
Proof.
  split; [by vm_compute|]. split.
  { unfold tables. repeat constructor; by_compute. }
  split; [reflexivity|]. split; [reflexivity|]. split; [by vm_compute|]. by_compute.
Qed.



(** The customer keys are trimmed of the white space of Unicode, not of the
    space inside. *)
Example customer_keys_trimmed :
  columns_of_run (northwind_with nw_orders_spaced nw_customers)
    [(fact_sales, "CustomerKey")]
  = Ok [[VStr "VINET"; VStr "VINET"; VStr "VI NET"]].
Proof. vm_compute. reflexivity. Qed.

End absent_examples.
